(** * EcoWaste-AI: the label-to-disposal scoring engine of
      [src/components/Scan_or_Upload/Part2.tsx]

    A shallow embedding of [getWasteDetails] (keyword-weighted voting, the
    broken-glass safety override and the no-winner heuristic), of the
    [retryFetch] wrapper and of the bounded history list, followed by the
    properties proved about them.

    Numbers are JavaScript numbers, that is IEEE 754 binary64 values: they
    are embedded as Rocq's primitive floats, so that [0.2 + 0.1] is the
    double the browser computes and comparisons treat NaN as the source
    does.  A string is the sequence of its code units, one [ascii] per
    unit, which covers the code units below 256. *)

From Stdlib Require Import Floats ZArith NArith List String Ascii Bool Lia PeanoNat.
From Stdlib Require Import DecimalString.
Import ListNotations.

Set Warnings "-inexact-float".

Open Scope bool_scope.
Open Scope string_scope.

(** ** The string built-ins the source calls *)

Module JsString.

(** Code units with an upper-case form in the range: A-Z and the
    Latin-1 capitals U+00C0-U+00DE, the multiplication sign excepted. *)
Definition is_upper (n : N) : bool :=
  ((65 <=? n) && (n <=? 90))%N
  || ((192 <=? n) && (n <=? 222) && negb (n =? 215))%N.

Definition lower_unit (c : ascii) : ascii :=
  let n := N_of_ascii c in
  if is_upper n then ascii_of_N (n + 32) else c.

(** [String.prototype.toLowerCase]. *)
Fixpoint toLowerCase (s : string) : string :=
  match s with
  | EmptyString => EmptyString
  | String c s' => String (lower_unit c) (toLowerCase s')
  end.

(** White space and line terminators of ECMAScript in the range:
    TAB, LF, VT, FF, CR, SP and NBSP. *)
Definition is_space (c : ascii) : bool :=
  let n := N_of_ascii c in
  (((9 <=? n) && (n <=? 13)) || (n =? 32) || (n =? 160))%N.

Fixpoint trimStart (s : string) : string :=
  match s with
  | EmptyString => EmptyString
  | String c s' => if is_space c then trimStart s' else s
  end.

Fixpoint trimEnd (s : string) : string :=
  match s with
  | EmptyString => EmptyString
  | String c s' =>
      match trimEnd s' with
      | EmptyString => if is_space c then EmptyString else String c EmptyString
      | t => String c t
      end
  end.

(** [String.prototype.trim]. *)
Definition trim (s : string) : string := trimEnd (trimStart s).

(** [s.includes(kw)]: [kw] occurs in [s] at some position. *)
Fixpoint includes (s kw : string) : bool :=
  prefix kw s
  || match s with
     | EmptyString => false
     | String _ s' => includes s' kw
     end.

(** [s.substring(0, n)]. *)
Definition substring0 (n : nat) (s : string) : string := substring 0 n s.

End JsString.

(** ** Data model *)

(** [interface HFPrediction]. *)
Record HFPrediction := mkPrediction {
  label : string;
  score : float
}.

(** [interface WasteDetail]; the optional fields are absent ([None]) in
    most profiles. *)
Record WasteDetail := mkWasteDetail {
  type : string;
  recyclable : bool;
  note : string;
  special : option bool;
  compostable : option bool
}.

(** [interface ClassificationResult extends WasteDetail]: the raw label
    and the inherited fields, kept together as [detail]. *)
Record ClassificationResult := mkResult {
  rawLabel : string;
  detail : WasteDetail
}.

(** [interface HistoryItem extends ClassificationResult]. *)
Record HistoryItem := mkHistoryItem {
  result : ClassificationResult;
  imageSrc : string;
  timestamp : Z
}.

(** [type WasteCategoryKey]. *)
Inductive WasteCategoryKey :=
  | PlasticFilm | Metal | RigidPlastic | Paper | Glass | Cardboard | FoodOrganics.

Definition key_eqb (a b : WasteCategoryKey) : bool :=
  match a, b with
  | PlasticFilm, PlasticFilm | Metal, Metal | RigidPlastic, RigidPlastic
  | Paper, Paper | Glass, Glass | Cardboard, Cardboard
  | FoodOrganics, FoodOrganics => true
  | _, _ => false
  end.

(** ** Static tables *)

(** [KEYWORD_SCORES]. *)
Definition KEYWORD_SCORES (key : WasteCategoryKey) : list string :=
  match key with
  | PlasticFilm =>
      ["plastic bag"; "film"; "wrapping"; "wrap"; "grocery bag"; "carrier bag";
       "plastic sheet"; "polyethylene"; "shopping bag"; "clear plastic"]
  | Metal =>
      ["metal"; "steel"; "aluminum"; "aluminium"; "tin"; "can"; "foil";
       "beverage can"; "utensil"; "cutlery"; "silverware"; "cookware"]
  | RigidPlastic =>
      ["bottle"; "container"; "jug"; "rigid plastic"; "tub"; "pet bottle";
       "plastic bottle"]
  | Paper =>
      ["paper"; "book"; "magazine"; "newspaper"; "flyer"; "printed paper";
       "notebook"]
  | Glass =>
      ["glass"; "jar"; "shattered"; "cup"; "tumbler"; "cut glass"; "bottle";
       "window"]
  | Cardboard =>
      ["box"; "cardboard"; "carton"; "packaging"; "paperboard"; "corrugated"]
  | FoodOrganics =>
      ["banana"; "apple"; "orange"; "pizza slice"; "leaf"; "log"; "food";
       "fruit"; "vegetable"; "compost"; "peel"]
  end.

(** The order in which [for (const category in KEYWORD_SCORES)] visits the
    keys: the order of the object literal. *)
Definition KEYWORD_SCORES_keys : list WasteCategoryKey :=
  [PlasticFilm; Metal; RigidPlastic; Paper; Glass; Cardboard; FoodOrganics].

(** The category set in the order in which the type [WasteCategoryKey]
    (line 34) enumerates it. *)
Definition WasteCategoryKey_enumeration : list WasteCategoryKey :=
  [PlasticFilm; Metal; RigidPlastic; Paper; Glass; Cardboard; FoodOrganics].

(** The keys of [WASTE_MAP]. *)
Inductive WasteMapKey :=
  | rigid_plastic_default | metal_default | glass_default | cardboard_default
  | paper_default | plastic_film_trash | broken_glass_special | organic_compost
  | UNKNOWN_FALLBACK.

(** [WASTE_MAP]. *)
Definition WASTE_MAP (k : WasteMapKey) : WasteDetail :=
  match k with
  | rigid_plastic_default =>
      mkWasteDetail "Plastic (Rigid)" true
        "Empty, rinse, and replace the cap. This is rigid plastic." None None
  | metal_default =>
      mkWasteDetail "Metal" true "Rinse well and flatten if possible." None None
  | glass_default =>
      mkWasteDetail "Glass" true
        "Empty and rinse well. **Intact** glass containers are recyclable."
        None None
  | cardboard_default =>
      mkWasteDetail "Cardboard" true
        "Must be flattened and dry. Remove all tape." None None
  | paper_default =>
      mkWasteDetail "Paper" true
        "Recyclable. Books, newspapers, and office paper should be clean and dry."
        None None
  | plastic_film_trash =>
      mkWasteDetail "Miscellaneous Trash" false
        "Plastic film/bags are NOT curbside recyclable. Use store drop-off or trash."
        None None
  | broken_glass_special =>
      mkWasteDetail "Miscellaneous Trash" false
        "DANGER: Broken or shattered glass is NOT recyclable curbside due to safety. **Throw it in the trash** only after safely wrapping the pieces in thick newspaper or a small box."
        (Some true) None
  | organic_compost =>
      mkWasteDetail "Food Organics" false "Compostable/Green Bin waste."
        None (Some true)
  | UNKNOWN_FALLBACK =>
      mkWasteDetail "Miscellaneous Trash" false
        "Item not in the specific waste map. Defaulting to Miscellaneous Trash."
        (Some false) (Some false)
  end.

(** ** The classifier *)

Module Classifier.
Import JsString.

(** What a JavaScript call produces: a value, or a thrown exception. *)
Inductive JsError := TypeError.

Inductive JsResult (A : Type) :=
  | Ok (a : A)
  | Throw (e : JsError).
Arguments Ok {A} a.
Arguments Throw {A} e.

Definition js_map {A B} (f : A -> B) (r : JsResult A) : JsResult B :=
  match r with
  | Ok a => Ok (f a)
  | Throw e => Throw e
  end.

(** [categoryScores]: one accumulator per category. *)
Definition CategoryScores := WasteCategoryKey -> float.

Definition initialScores : CategoryScores := fun _ => 0%float.

(** The order in which [for (const category in categoryScores)] visits
    the keys: the order of the object literal that creates it. *)
Definition categoryScores_keys : list WasteCategoryKey :=
  [PlasticFilm; RigidPlastic; Metal; Glass; Cardboard; Paper; FoodOrganics].

(** [categoryScores[key] += w]. *)
Definition bump (cs : CategoryScores) (key : WasteCategoryKey) (w : float)
  : CategoryScores :=
  fun k => if key_eqb k key then (cs k + w)%float else cs k.

(** Body of [KEYWORD_SCORES[key].forEach]. *)
Definition score_keyword (cleanLabel : string) (weight : float)
    (key : WasteCategoryKey) (cs : CategoryScores) (keyword : string)
  : CategoryScores :=
  if includes cleanLabel keyword then bump cs key (weight + 0.1)%float else cs.

(** Body of [for (const category in KEYWORD_SCORES)]. *)
Definition score_category (cleanLabel : string) (weight : float)
    (cs : CategoryScores) (key : WasteCategoryKey) : CategoryScores :=
  fold_left (score_keyword cleanLabel weight key) (KEYWORD_SCORES key) cs.

(** Body of [predictions.slice(0, 5).forEach]. *)
Definition score_prediction (cs : CategoryScores) (p : HFPrediction)
  : CategoryScores :=
  let cleanLabel := trim (toLowerCase (label p)) in
  let weight := score p in
  fold_left (score_category cleanLabel weight) KEYWORD_SCORES_keys cs.

(** The accumulators after the voting step. *)
Definition tally (predictions : list HFPrediction) : CategoryScores :=
  fold_left score_prediction (firstn 5 predictions) initialScores.

(** Body of the winner loop; the state is [(winningCategory, maxScore)],
    and [a > b] of the source reads [b <? a]. *)
Definition pick_step (cs : CategoryScores)
    (st : option WasteCategoryKey * float) (key : WasteCategoryKey)
  : option WasteCategoryKey * float :=
  if (snd st <? cs key)%float && (0.3 <? cs key)%float
  then (Some key, cs key)
  else st.

Definition pick_loop (cs : CategoryScores) (keys : list WasteCategoryKey)
    (st : option WasteCategoryKey * float)
  : option WasteCategoryKey * float :=
  fold_left (pick_step cs) keys st.

(** [winningCategory] after the loop. *)
Definition pick_winner (cs : CategoryScores) : option WasteCategoryKey :=
  fst (pick_loop cs categoryScores_keys (None, 0%float)).

(** Invariant of the winner loop once the keys of [visited] are done:
    no visited score beats both the running maximum and the threshold,
    the maximum is still 0 while there is no winner, and a current winner
    holds the maximum, is above the threshold and is preceded by no equal
    score. *)
Definition loop_inv (cs : CategoryScores) (visited : list WasteCategoryKey)
    (st : option WasteCategoryKey * float) : Prop :=
  (forall k, In k visited ->
     (snd st <? cs k)%float && (0.3 <? cs k)%float = false)
  /\ (fst st = None -> snd st = 0%float)
  /\ (forall key, fst st = Some key ->
        snd st = cs key
        /\ (0.3 <? cs key)%float = true
        /\ exists pre post,
             visited = (pre ++ key :: post)%list
             /\ forall k, In k pre -> (cs k =? cs key)%float = false).

(** The [return] statement a call leaves through. *)
Inductive ReturnPath :=
  | EmptyInput
  | SafetyOverride
  | VoteWinner (key : WasteCategoryKey)
  | FallbackPaper
  | FallbackContainer
  | FallbackUnknown.

(** The profile each [case] of the [switch] spreads. *)
Definition category_profile (key : WasteCategoryKey) : WasteMapKey :=
  match key with
  | RigidPlastic => rigid_plastic_default
  | PlasticFilm => plastic_film_trash
  | Metal => metal_default
  | Cardboard => cardboard_default
  | Paper => paper_default
  | Glass => glass_default
  | FoodOrganics => organic_compost
  end.

(** [{ ...w, note: n }]. *)
Definition with_note (w : WasteDetail) (n : string) : WasteDetail :=
  mkWasteDetail (type w) (recyclable w) n (special w) (compostable w).

Definition paper_vague_note : string :=
  "Model was vague but identified a paper product. Assuming clean and dry paper.".

Definition container_vague_note : string :=
  "Model was vague but identified a container type. Assuming standard rigid plastic.".

(** The safety test on the lower-cased top label. *)
Definition is_broken_glass (lowerTopLabel : string) : bool :=
  includes lowerTopLabel "broken glass"
  || includes lowerTopLabel "shattered"
  || includes lowerTopLabel "broken cup"
  || includes lowerTopLabel "cut glass".

(** [getWasteDetails], with the [return] statement taken.  The argument
    is [None] for an absent ([null] or [undefined]) list. *)
Definition getWasteDetails_traced (predictions : option (list HFPrediction))
  : JsResult (ReturnPath * ClassificationResult) :=
  match predictions with
  | None | Some [] =>
      Ok (EmptyInput, mkResult "N/A" (WASTE_MAP UNKNOWN_FALLBACK))
  | Some ps =>
      match nth_error ps 0 with
      | None => Throw TypeError
      | Some p0 =>
          let topRawLabel := label p0 in
          let categoryScores := tally ps in
          let winningCategory := pick_winner categoryScores in
          let lowerTopLabel := toLowerCase topRawLabel in
          if is_broken_glass lowerTopLabel then
            Ok (SafetyOverride,
                mkResult topRawLabel (WASTE_MAP broken_glass_special))
          else
            match winningCategory with
            | Some key =>
                Ok (VoteWinner key,
                    mkResult topRawLabel (WASTE_MAP (category_profile key)))
            | None =>
                if includes lowerTopLabel "bottle"
                   || includes lowerTopLabel "can"
                   || includes lowerTopLabel "book"
                then
                  if includes lowerTopLabel "book"
                     || includes lowerTopLabel "newspaper"
                  then
                    Ok (FallbackPaper,
                        mkResult topRawLabel
                          (with_note (WASTE_MAP paper_default)
                                     paper_vague_note))
                  else
                    Ok (FallbackContainer,
                        mkResult topRawLabel
                          (with_note (WASTE_MAP rigid_plastic_default)
                                     container_vague_note))
                else
                  Ok (FallbackUnknown,
                      mkResult topRawLabel (WASTE_MAP UNKNOWN_FALLBACK))
            end
      end
  end.

(** The static profile a note-overriding [return] spreads before it
    replaces [note]. *)
Definition overridden_profile (path : ReturnPath) : option WasteMapKey :=
  match path with
  | FallbackPaper => Some paper_default
  | FallbackContainer => Some rigid_plastic_default
  | _ => None
  end.

(** [getWasteDetails]. *)
Definition getWasteDetails (predictions : option (list HFPrediction))
  : JsResult ClassificationResult :=
  js_map snd (getWasteDetails_traced predictions).

End Classifier.

(** ** The retry wrapper around the prediction fetch *)

Module Retry.
Import JsString.

(** The [error] member of the parsed body as the test of line 113 meets
    it: absent or falsy ([undefined], [null], [false], [0]); a string; an
    array, with its string elements ([None] for any other element); or
    another truthy value (a number, [true], an object), which has no
    [includes] to call, so that the call throws a [TypeError] with the
    engine's message [type_error]. *)
Inductive ErrorMember :=
  | NoError
  | ErrorText (e : string)
  | ErrorArray (items : list (option string))
  | ErrorOther (type_error : string).

(** [details], the value of [response.json().catch(() => ({}))]: JSON
    [null], on which reading [details.error] throws a [TypeError] with
    the engine's message [type_error]; or any other value, with its
    [error] member and the text [JSON.stringify(details)] produces. *)
Inductive Details :=
  | DetailsNull (type_error : string)
  | DetailsValue (error_member : ErrorMember) (json_text : string).

(** What [retryFetch] reads of a [Response]: [ok], [status] and the
    parsed body. *)
Record Response := mkResponseOf {
  ok : bool;
  status : N;
  details : Details
}.

(** A response whose body is an object with a string [error] member
    ([Some]) or without one ([None]). *)
Definition mkResponse (ok : bool) (status : N) (details_error : option string)
    (details_json : string) : Response :=
  mkResponseOf ok status
    (DetailsValue
       (match details_error with
        | Some e => ErrorText e
        | None => NoError
        end)
       details_json).

(** A thrown value: an [Error] with its message, or anything else. *)
Inductive Thrown :=
  | ErrorObject (message : string)
  | OtherValue.

(** One [await fetch(url, options)]: it resolves or rejects. *)
Inductive FetchOutcome :=
  | Resolved (r : Response)
  | Rejected (reason : Thrown).

(** The network as the wrapper sees it: the outcome of the fetch of
    each loop iteration. *)
Definition Network := nat -> FetchOutcome.

(** The observable actions: a fetch, and a [setTimeout] wait in ms. *)
Inductive Event :=
  | EvFetch
  | EvSleep (ms : N).

(** How [retryFetch] ends. *)
Inductive Outcome :=
  | Returned (r : Response)
  | Raised (message : string).

Definition unauthorized_message : string :=
  "401 Unauthorized: Please verify your Hugging Face API token is correct.".

Definition N_to_string (n : N) : string :=
  NilEmpty.string_of_uint (N.to_uint n).

(** [JSON.stringify(details)]. *)
Definition details_json (r : Response) : string :=
  match details r with
  | DetailsNull _ => "null"
  | DetailsValue _ json_text => json_text
  end.

Definition http_error_message (r : Response) : string :=
  "HTTP error! Status: " ++ N_to_string (status r) ++ ". Details: "
    ++ substring0 100 (details_json r) ++ "...".

(** The [TypeError] that evaluating the test of line 113 throws, if it
    does: on a [null] body, or on a truthy [error] without [includes]. *)
Definition loading_test_throws (r : Response) : option string :=
  match details r with
  | DetailsNull type_error => Some type_error
  | DetailsValue (ErrorOther type_error) _ => Some type_error
  | DetailsValue _ _ => None
  end.

(** [details.error && details.error.includes("is currently loading")]
    when it evaluates: the substring test on a string (the empty string
    is falsy and contains nothing), the membership test on an array. *)
Definition is_loading (r : Response) : bool :=
  match details r with
  | DetailsValue (ErrorText e) _ => includes e "is currently loading"
  | DetailsValue (ErrorArray items) _ =>
      existsb
        (fun x =>
           match x with
           | Some e => String.eqb e "is currently loading"
           | None => false
           end)
        items
  | _ => false
  end.

(** How the [try] block of one iteration ends. *)
Inductive TryResult :=
  | TryReturn (r : Response)
  | TryContinue
  | TryThrow (v : Thrown).

(** The [try] block, after the fetch of the iteration. *)
Definition try_block (o : FetchOutcome) : list Event * TryResult :=
  match o with
  | Rejected v => ([EvFetch], TryThrow v)
  | Resolved response =>
      if negb (ok response) then
        if (status response =? 401)%N then
          ([EvFetch], TryThrow (ErrorObject unauthorized_message))
        else
          match loading_test_throws response with
          | Some type_error => ([EvFetch], TryThrow (ErrorObject type_error))
          | None =>
              if is_loading response then
                ([EvFetch; EvSleep 5000], TryContinue)
              else
                ([EvFetch],
                 TryThrow (ErrorObject (http_error_message response)))
          end
      else ([EvFetch], TryReturn response)
  end.

(** [error instanceof Error ? error.message : ...] of the [catch]. *)
Definition errorMessage (v : Thrown) : string :=
  match v with
  | ErrorObject m => m
  | OtherValue => "An unknown error occurred."
  end.

(** The [for] loop from iteration [i], with [fuel = retries - i]
    iterations left. *)
Fixpoint retry_from (net : Network) (retries fuel i : nat)
  : list Event * Outcome :=
  match fuel with
  | O => ([], Raised "Fetch failed after all retries.")
  | S fuel' =>
      let (evs, r) := try_block (net i) in
      match r with
      | TryReturn response => (evs, Returned response)
      | TryContinue =>
          let (rest, out) := retry_from net retries fuel' (S i) in
          ((evs ++ rest)%list, out)
      | TryThrow v =>
          if (i =? retries - 1)%nat then (evs, Raised (errorMessage v))
          else
            let (rest, out) := retry_from net retries fuel' (S i) in
            ((evs ++ EvSleep (2 ^ N.of_nat i * 1000) :: rest)%list, out)
      end
  end.

(** [retryFetch]; the source's default for [retries] is 3. *)
Definition retryFetch (net : Network) (retries : nat) : list Event * Outcome :=
  retry_from net retries retries 0.

End Retry.

(** ** The history list *)

Module History.

(** The state [history], created by [useState<HistoryItem[]>([])]. *)
Definition initialHistory : list HistoryItem := [].

(** The updater passed to [setHistory] after a classification. *)
Definition addToHistory (newHistoryItem : HistoryItem)
    (prevHistory : list HistoryItem) : list HistoryItem :=
  let updatedHistory := newHistoryItem :: prevHistory in
  firstn 5 updatedHistory.

(** [setHistory([])] of the Clear History button. *)
Definition clearHistory (prevHistory : list HistoryItem) : list HistoryItem :=
  [].

Inductive HistoryOp :=
  | Store (item : HistoryItem)
  | Clear.

Definition history_step (h : list HistoryItem) (op : HistoryOp)
  : list HistoryItem :=
  match op with
  | Store item => addToHistory item h
  | Clear => clearHistory h
  end.

(** The history after a sequence of updates, oldest update first. *)
Definition run_history (ops : list HistoryOp) : list HistoryItem :=
  fold_left history_step ops initialHistory.

End History.

(** ** What the result components display *)

Module Status.

(** Truthiness of an optional boolean prop: [undefined] is falsy. *)
Definition truthy (b : option bool) : bool :=
  match b with
  | Some true => true
  | _ => false
  end.

Inductive Icon := AlertTriangle | Recycle | Zap | XCircle.

Record StatusView := mkStatusView {
  icon : Icon;
  color : string;
  text : string
}.

(** The [if] chain of [RecyclabilityStatus]. *)
Definition RecyclabilityStatus (recyclable : bool) (special compostable : option bool)
  : StatusView :=
  if truthy special then
    mkStatusView AlertTriangle
      "text-red-600 bg-red-100 dark:bg-red-800 dark:text-red-200"
      "Special Disposal Required"
  else if recyclable then
    mkStatusView Recycle
      "text-green-600 bg-green-100 dark:bg-green-800 dark:text-green-200"
      "Recyclable"
  else if truthy compostable then
    mkStatusView Zap
      "text-yellow-600 bg-yellow-100 dark:bg-yellow-800 dark:text-yellow-200"
      "Compostable / Green Bin"
  else
    mkStatusView XCircle
      "text-gray-600 bg-gray-100 dark:bg-gray-700 dark:text-gray-200"
      "General Waste (Not Recyclable)".

(** The status rendered for a classification, as [Part2] passes the
    props. *)
Definition statusOf (c : ClassificationResult) : StatusView :=
  RecyclabilityStatus (recyclable (detail c)) (special (detail c))
    (compostable (detail c)).

(** [getIndicatorColor] of [HistoryCard]. *)
Definition getIndicatorColor (item : HistoryItem) : string :=
  if truthy (special (detail (result item))) then "bg-red-500"
  else if recyclable (detail (result item)) then "bg-green-500"
  else if truthy (compostable (detail (result item))) then "bg-yellow-500"
  else "bg-gray-500".

(** The badge text of [HistoryCard]. *)
Definition badgeLabel (item : HistoryItem) : string :=
  if recyclable (detail (result item)) then "RECYCLE"
  else if truthy (compostable (detail (result item))) then "COMPOST"
  else "TRASH".

End Status.

(** ** The component state and its handlers *)

Module Inference.
Import JsString Classifier Retry History.

(** What the handlers read of a [File]. *)
Record File := mkFile {
  file_name : string;
  file_type : string
}.

Inductive FacingMode := user | environment.

Definition FALLBACK_IMAGE_URL : string :=
  "https://placehold.co/600x400/1e293b/f8fafc?text=Upload+Image".

(** The [useState] cells of [Part2] that the handlers below write. *)
Record AppState := mkAppState {
  imageFile : option File;
  imageUrl : string;
  classification : option ClassificationResult;
  loading : bool;
  error : string;
  isCameraMode : bool;
  history : list HistoryItem;
  cameraFacingMode : FacingMode
}.

Definition initialState : AppState :=
  mkAppState None FALLBACK_IMAGE_URL None false "" false initialHistory environment.

Definition setImageFile (f : option File) (s : AppState) : AppState :=
  mkAppState f (imageUrl s) (classification s) (loading s) (error s)
    (isCameraMode s) (history s) (cameraFacingMode s).

Definition setImageUrl (u : string) (s : AppState) : AppState :=
  mkAppState (imageFile s) u (classification s) (loading s) (error s)
    (isCameraMode s) (history s) (cameraFacingMode s).

Definition setClassification (c : option ClassificationResult) (s : AppState)
  : AppState :=
  mkAppState (imageFile s) (imageUrl s) c (loading s) (error s)
    (isCameraMode s) (history s) (cameraFacingMode s).

Definition setLoading (b : bool) (s : AppState) : AppState :=
  mkAppState (imageFile s) (imageUrl s) (classification s) b (error s)
    (isCameraMode s) (history s) (cameraFacingMode s).

Definition setError (e : string) (s : AppState) : AppState :=
  mkAppState (imageFile s) (imageUrl s) (classification s) (loading s) e
    (isCameraMode s) (history s) (cameraFacingMode s).

Definition setIsCameraMode (b : bool) (s : AppState) : AppState :=
  mkAppState (imageFile s) (imageUrl s) (classification s) (loading s) (error s)
    b (history s) (cameraFacingMode s).

(** [setHistory] with an updater function. *)
Definition setHistory (f : list HistoryItem -> list HistoryItem) (s : AppState)
  : AppState :=
  mkAppState (imageFile s) (imageUrl s) (classification s) (loading s) (error s)
    (isCameraMode s) (f (history s)) (cameraFacingMode s).

Definition setCameraFacingMode (f : FacingMode -> FacingMode) (s : AppState)
  : AppState :=
  mkAppState (imageFile s) (imageUrl s) (classification s) (loading s) (error s)
    (isCameraMode s) (history s) (f (cameraFacingMode s)).

(** [toggleCameraFacingMode]. *)
Definition toggleCameraFacingMode (s : AppState) : AppState :=
  setCameraFacingMode
    (fun prevMode => match prevMode with environment => user | user => environment end)
    s.

(** [handleStartCameraMode]. *)
Definition handleStartCameraMode (s : AppState) : AppState :=
  setIsCameraMode true (setClassification None (setImageFile None (setError "" s))).

(** [handleFileChange]: [file] is [event.target.files[0]] or [null], and
    [objectUrl] what [URL.createObjectURL] gives for it. *)
Definition handleFileChange (file : option File) (objectUrl : string)
    (s : AppState) : AppState :=
  let s := if isCameraMode s then setIsCameraMode false s else s in
  match file with
  | Some f =>
      if prefix "image/" (file_type f) then
        setError "" (setClassification None (setImageUrl objectUrl (setImageFile (Some f) s)))
      else
        setError "Please select a valid image file (PNG, JPG, etc.)."
          (setImageUrl FALLBACK_IMAGE_URL (setImageFile None s))
  | None =>
      setError "Please select a valid image file (PNG, JPG, etc.)."
        (setImageUrl FALLBACK_IMAGE_URL (setImageFile None s))
  end.

(** What the browser does when [captureImage] runs: the video or canvas
    is missing, the canvas has no 2d context, [toBlob] gives a blob (whose
    object URL is [objectUrl]) or gives none. *)
Inductive CaptureOutcome :=
  | CaptureNotReady
  | CaptureNoContext
  | CaptureBlob (objectUrl : string)
  | CaptureNoBlob.

(** [captureImage]. *)
Definition captureImage (o : CaptureOutcome) (s : AppState)
  : AppState * option File :=
  match o with
  | CaptureNotReady =>
      (setError "Camera or canvas not ready for capture." s, None)
  | CaptureNoContext => (s, None)
  | CaptureBlob objectUrl =>
      let file := mkFile "captured_waste_image.png" "image/png" in
      (setImageUrl objectUrl (setImageFile (Some file) s), Some file)
  | CaptureNoBlob =>
      (setError "Failed to create image blob from canvas." s, None)
  end.

(** The value [response.json()] parses: an array of predictions, an
    object (with the text of its [error] member when it has one), or a
    primitive, on which the [in] operator throws. *)
Inductive JsonResult :=
  | JArray (items : list HFPrediction)
  | JObject (error_member : option string)
  | JPrimitive.

Inductive Promised (A : Type) :=
  | Fulfilled (a : A)
  | Failed (reason : Thrown).
Arguments Fulfilled {A} a.
Arguments Failed {A} reason.

(** Everything outside the component that one run of [runInference]
    meets. *)
Record InferenceEnv := mkEnv {
  HF_API_TOKEN : option string;
  capture : CaptureOutcome;
  base64 : Promised string;
  arrayBuffer : Promised unit;
  net : Network;
  json : Promised JsonResult;
  now : Z;
  engine_message : JsError -> string
}.

Definition token_missing_message : string :=
  "Hugging Face API Token is missing. If running locally, ensure VITE_HF_TOKEN is set in your .env file. If running here, you must manually update the HF_API_TOKEN constant in the source code.".

Definition unexpected_format_message : string :=
  "Classification failed: Received an unexpected response format from the model.".

(** The [catch] of [runInference]. *)
Definition inference_catch (err : Thrown) (s : AppState) : AppState :=
  let errorMessage :=
    match err with
    | ErrorObject m => m
    | OtherValue => "An unknown error occurred during inference."
    end in
  setError ("Inference failed: " ++ errorMessage) s.

(** The [try] block of [runInference]. *)
Definition inference_try (env : InferenceEnv) (fileToInfer : File)
    (s : AppState) : AppState * list Event :=
  match base64 env with
  | Failed err => (inference_catch err s, [])
  | Fulfilled base64Image =>
      match arrayBuffer env with
      | Failed err => (inference_catch err s, [])
      | Fulfilled _ =>
          let (events, fetched) := retryFetch (net env) 3 in
          match fetched with
          | Raised m => (inference_catch (ErrorObject m) s, events)
          | Returned response =>
              match json env with
              | Failed err => (inference_catch err s, events)
              | Fulfilled (JArray []) =>
                  (setError unexpected_format_message s, events)
              | Fulfilled (JArray result) =>
                  match getWasteDetails (Some result) with
                  | Throw e =>
                      (inference_catch (ErrorObject (engine_message env e)) s,
                       events)
                  | Ok wasteDetails =>
                      let newHistoryItem :=
                        mkHistoryItem wasteDetails base64Image (now env) in
                      (setHistory (addToHistory newHistoryItem)
                         (setClassification (Some wasteDetails) s),
                       events)
                  end
              | Fulfilled (JObject (Some e)) =>
                  (setError
                     ("Classification failed: Hugging Face API Error: " ++ e) s,
                   events)
              | Fulfilled (JObject None) =>
                  (setError unexpected_format_message s, events)
              | Fulfilled JPrimitive =>
                  (inference_catch
                     (ErrorObject (engine_message env TypeError)) s,
                   events)
              end
          end
      end
  end.

(** [runInference], from the state of the render that created it; the
    result is the state once the promise settles and the fetches and
    waits made. *)
Definition runInference (env : InferenceEnv) (s : AppState)
  : AppState * list Event :=
  match HF_API_TOKEN env with
  | Some "" => (setError token_missing_message s, [])
  | _ =>
      let '(s1, fileToInfer, returned) :=
        if isCameraMode s then
          let (s', captured) := captureImage (capture env) s in
          let s' := setIsCameraMode false s' in
          match captured with
          | None => (setLoading false s', None, true)
          | Some _ => (s', captured, false)
          end
        else
          match imageFile s with
          | None =>
              (setError
                 "Please upload an image or enable camera mode before classifying."
                 s, None, true)
          | Some _ => (s, imageFile s, false)
          end in
      if returned then (s1, [])
      else
        match fileToInfer with
        | None => (setError "No image available for inference." s1, [])
        | Some file =>
            let s2 := setClassification None (setError "" (setLoading true s1)) in
            let (s3, events) := inference_try env file s2 in
            (setLoading false s3, events)
        end
  end.

(** The histories the component can hold.  [setHistory] is called in
    two places only, the updater of a run (line 433) and the Clear
    History button (line 720); every other handler and effect writes
    other cells, so a run may start from any state that holds the current
    history. *)
Inductive history_reachable : list HistoryItem -> Prop :=
  | reach_initial : history_reachable initialHistory
  | reach_run (env : InferenceEnv) (s : AppState) :
      history_reachable (history s) ->
      history_reachable (history (fst (runInference env s)))
  | reach_clear (h : list HistoryItem) :
      history_reachable h -> history_reachable (clearHistory h).

End Inference.

(** ** Traces of the retry wrapper *)

Module RetryTraces.
Import Retry.

(** The fetches and waits of attempts that all end in the [catch]: a
    fetch per attempt, and between attempts [i] and [i + 1] a wait of
    [2^i] seconds. *)
Fixpoint backoff_trace (attempts i : nat) : list Event :=
  match attempts with
  | O => []
  | S O => [EvFetch]
  | S n => EvFetch :: EvSleep (2 ^ N.of_nat i * 1000) :: backoff_trace n (S i)
  end.

(** The fetches and waits of attempts that all find the model loading. *)
Fixpoint loading_trace (attempts : nat) : list Event :=
  match attempts with
  | O => []
  | S n => EvFetch :: EvSleep 5000 :: loading_trace n
  end.

(** The number of fetches in a trace. *)
Fixpoint fetch_count (events : list Event) : nat :=
  match events with
  | [] => 0
  | EvFetch :: rest => S (fetch_count rest)
  | EvSleep _ :: rest => fetch_count rest
  end.

End RetryTraces.

Import JsString Classifier Retry History.

(** * Properties *)

(** ** Order facts on binary64 comparisons

    [<?] and [=?] on floats are the comparisons of the source ([>] read
    from right to left, and numeric equality); both are false as soon as
    an operand is NaN. *)

Section SpecFloatOrder.

Ltac cmp_cases :=
  repeat match goal with
  | |- context [Z.compare ?a ?b] => destruct (Z.compare_spec a b)
  | |- context [Pos.compare ?a ?b] => destruct (Pos.compare_spec a b)
  end.

Lemma SFcompare_Lt_trans (a b c : spec_float) :
  SFcompare a b = Some Lt -> SFcompare b c = Some Lt ->
  SFcompare a c = Some Lt.
Proof.
  destruct a as [sa|sa| |sa ma ea], b as [sb|sb| |sb mb eb],
           c as [sc|sc| |sc mc ec]; simpl;
    try discriminate; try reflexivity;
    try (destruct sa, sb, sc; simpl; congruence).
  change (Pos.compare_cont Eq ma mb) with (Pos.compare ma mb).
  change (Pos.compare_cont Eq mb mc) with (Pos.compare mb mc).
  change (Pos.compare_cont Eq ma mc) with (Pos.compare ma mc).
  destruct sa, sb, sc; try congruence; cmp_cases; simpl;
    try congruence; try lia.
Qed.

Lemma SFcompare_Eq_compat (m x y : spec_float) :
  SFcompare x y = Some Eq -> SFcompare m x = SFcompare m y.
Proof.
  destruct x as [sx|sx| |sx mx ex], y as [sy|sy| |sy my ey]; simpl;
    try discriminate;
    try (destruct sx, sy; discriminate);
    try (destruct sx; discriminate); try (destruct sy; discriminate).
  - destruct m; reflexivity.
  - destruct sx, sy; try discriminate; reflexivity.
  - change (Pos.compare_cont Eq mx my) with (Pos.compare mx my).
    destruct sx, sy; try discriminate;
      destruct (Z.compare_spec ex ey); try discriminate;
      destruct (Pos.compare_spec mx my); try discriminate;
      subst; reflexivity.
Qed.

Lemma SFcompare_irrefl (a : spec_float) : SFcompare a a <> Some Lt.
Proof.
  destruct a as [s|s| |s m e]; simpl; try discriminate.
  - destruct s; discriminate.
  - change (Pos.compare_cont Eq m m) with (Pos.compare m m).
    rewrite Z.compare_refl, Pos.compare_refl. destruct s; discriminate.
Qed.

End SpecFloatOrder.

Lemma float_ltb_trans (a b c : float) :
  (a <? b)%float = true -> (b <? c)%float = true -> (a <? c)%float = true.
Proof.
  rewrite !FloatAxioms.ltb_spec. unfold SFltb.
  destruct (SFcompare (Prim2SF a) (Prim2SF b)) as [[]|] eqn:Hab;
    try discriminate.
  destruct (SFcompare (Prim2SF b) (Prim2SF c)) as [[]|] eqn:Hbc;
    try discriminate.
  intros _ _. now rewrite (SFcompare_Lt_trans _ _ _ Hab Hbc).
Qed.

Lemma float_ltb_irrefl (a : float) : (a <? a)%float = false.
Proof.
  rewrite FloatAxioms.ltb_spec. unfold SFltb.
  destruct (SFcompare (Prim2SF a) (Prim2SF a)) as [[]|] eqn:H;
    try reflexivity.
  now apply SFcompare_irrefl in H.
Qed.

Lemma float_ltb_eqb_compat (m x y : float) :
  (x =? y)%float = true -> (m <? x)%float = (m <? y)%float.
Proof.
  rewrite FloatAxioms.eqb_spec, !FloatAxioms.ltb_spec. unfold SFeqb, SFltb.
  destruct (SFcompare (Prim2SF x) (Prim2SF y)) as [[]|] eqn:H;
    try discriminate.
  intros _. now rewrite (SFcompare_Eq_compat _ _ _ H).
Qed.

(** ** The winner loop *)

Section WinnerLoop.

Variable cs : CategoryScores.

Lemma loop_inv_step visited st key :
  loop_inv cs visited st ->
  loop_inv cs (visited ++ [key])%list (pick_step cs st key).
Proof.
  intros (Hmax & Hnone & Hwin). unfold pick_step.
  destruct ((snd st <? cs key)%float && (0.3 <? cs key)%float) eqn:Hc.
  - apply andb_true_iff in Hc as [Hlt Hthr]. split; [ | split ]; simpl.
    + intros k Hin. apply in_app_or in Hin as [Hin | [<- | []]].
      * specialize (Hmax k Hin).
        destruct (cs key <? cs k)%float eqn:Hk; [ | reflexivity ].
        rewrite (float_ltb_trans _ _ _ Hlt Hk),
                (float_ltb_trans _ _ _ Hthr Hk) in Hmax.
        discriminate.
      * now rewrite float_ltb_irrefl.
    + discriminate.
    + intros key' [= <-]. repeat split; try assumption.
      exists visited, []. split; [ reflexivity | ].
      intros k Hin. specialize (Hmax k Hin).
      destruct (cs k =? cs key)%float eqn:Heq; [ | reflexivity ].
      rewrite (float_ltb_eqb_compat _ _ _ Heq),
              (float_ltb_eqb_compat 0.3%float _ _ Heq), Hlt, Hthr in Hmax.
      discriminate.
  - split; [ | split ].
    + intros k Hin. apply in_app_or in Hin as [Hin | [<- | []]]; auto.
    + assumption.
    + intros key' Hst.
      destruct (Hwin key' Hst) as (Hm & Hthr & pre & post & -> & Hpre).
      repeat split; try assumption.
      exists pre, (post ++ [key])%list. split; [ | assumption ].
      now rewrite <- app_assoc.
Qed.

Lemma loop_inv_run keys visited st :
  loop_inv cs visited st ->
  loop_inv cs (visited ++ keys)%list (pick_loop cs keys st).
Proof.
  revert visited st. induction keys as [|key keys IH]; intros visited st H.
  - now rewrite app_nil_r.
  - simpl. replace (visited ++ key :: keys)%list
      with ((visited ++ [key]) ++ keys)%list
      by now rewrite <- app_assoc.
    apply IH, loop_inv_step, H.
Qed.

Lemma loop_inv_init : loop_inv cs [] (None, 0%float).
Proof. split; [ intros k [] | split; [ reflexivity | discriminate ] ]. Qed.

End WinnerLoop.

Lemma categoryScores_keys_complete (k : WasteCategoryKey) :
  In k categoryScores_keys.
Proof. destruct k; simpl; tauto. Qed.

(** ** The classifier on its early exits *)

Lemma tally_firstn (l : list HFPrediction) : tally (firstn 5 l) = tally l.
Proof. unfold tally. now rewrite firstn_firstn. Qed.

(** The body of [getWasteDetails] on a non-empty list, once the guard
    and [predictions[0]] are resolved. *)
Lemma getWasteDetails_traced_cons (p : HFPrediction) (rest : list HFPrediction) :
  getWasteDetails_traced (Some (p :: rest)) =
  if is_broken_glass (toLowerCase (label p)) then
    Ok (SafetyOverride, mkResult (label p) (WASTE_MAP broken_glass_special))
  else
    match pick_winner (tally (p :: rest)) with
    | Some key =>
        Ok (VoteWinner key, mkResult (label p) (WASTE_MAP (category_profile key)))
    | None =>
        if includes (toLowerCase (label p)) "bottle"
           || includes (toLowerCase (label p)) "can"
           || includes (toLowerCase (label p)) "book"
        then
          if includes (toLowerCase (label p)) "book"
             || includes (toLowerCase (label p)) "newspaper"
          then
            Ok (FallbackPaper,
                mkResult (label p)
                  (with_note (WASTE_MAP paper_default) paper_vague_note))
          else
            Ok (FallbackContainer,
                mkResult (label p)
                  (with_note (WASTE_MAP rigid_plastic_default)
                             container_vague_note))
        else
          Ok (FallbackUnknown, mkResult (label p) (WASTE_MAP UNKNOWN_FALLBACK))
    end.
Proof. reflexivity. Qed.

(** C1: on a non-empty list whose first label, lower-cased, contains
    "broken glass", "shattered", "broken cup" or "cut glass",
    [getWasteDetails] returns the [broken_glass_special] profile with
    [rawLabel] the first label, through the safety [return], whatever the
    scores and the other predictions are. *)
Theorem safety_override_has_priority
    (p : HFPrediction) (rest : list HFPrediction) :
  includes (toLowerCase (label p)) "broken glass" = true
  \/ includes (toLowerCase (label p)) "shattered" = true
  \/ includes (toLowerCase (label p)) "broken cup" = true
  \/ includes (toLowerCase (label p)) "cut glass" = true ->
  getWasteDetails (Some (p :: rest))
    = Ok (mkResult (label p) (WASTE_MAP broken_glass_special))
  /\ getWasteDetails_traced (Some (p :: rest))
    = Ok (SafetyOverride, mkResult (label p) (WASTE_MAP broken_glass_special)).
Proof.
  intros H.
  assert (Hbg : is_broken_glass (toLowerCase (label p)) = true).
  { unfold is_broken_glass.
    destruct H as [-> | [-> | [-> | ->]]]; rewrite ?orb_true_r; reflexivity. }
  unfold getWasteDetails.
  rewrite getWasteDetails_traced_cons, Hbg. split; reflexivity.
Qed.

Lemma safety_override_has_priority_witness :
  getWasteDetails
    (Some [mkPrediction "Shattered window pane" 0.1%float;
           mkPrediction "plastic bottle" 0.9%float])
  = Ok (mkResult "Shattered window pane" (WASTE_MAP broken_glass_special)).
Proof.
  apply (safety_override_has_priority
           (mkPrediction "Shattered window pane" 0.1%float)
           [mkPrediction "plastic bottle" 0.9%float]).
  right; left; reflexivity.
Defined.

(** C2: on the empty list and on an absent list [getWasteDetails] returns
    the [UNKNOWN_FALLBACK] profile with [rawLabel] "N/A", through the
    first [return], before any scoring, safety test or heuristic. *)
Theorem empty_input_is_unknown :
  getWasteDetails (Some []) = Ok (mkResult "N/A" (WASTE_MAP UNKNOWN_FALLBACK))
  /\ getWasteDetails None = Ok (mkResult "N/A" (WASTE_MAP UNKNOWN_FALLBACK))
  /\ getWasteDetails_traced (Some [])
     = Ok (EmptyInput, mkResult "N/A" (WASTE_MAP UNKNOWN_FALLBACK))
  /\ getWasteDetails_traced None
     = Ok (EmptyInput, mkResult "N/A" (WASTE_MAP UNKNOWN_FALLBACK)).
Proof. repeat split. Qed.

(** C3: [getWasteDetails] is total: on every input, absent, empty or of
    any length and contents, it returns a result and throws nothing. *)
Theorem getWasteDetails_total (predictions : option (list HFPrediction)) :
  exists v : ClassificationResult, getWasteDetails predictions = Ok v.
Proof.
  unfold getWasteDetails.
  destruct predictions as [[|p rest]|];
    [ eexists; reflexivity | | eexists; reflexivity ].
  rewrite getWasteDetails_traced_cons.
  destruct (is_broken_glass _); [ eexists; reflexivity | ].
  destruct (pick_winner _); [ eexists; reflexivity | ].
  destruct (_ || _); [ | eexists; reflexivity ].
  destruct (_ || _); eexists; reflexivity.
Qed.

(** The vote has a winner as soon as one accumulator is above 0.3. *)
Lemma winner_exists_above_threshold (cs : CategoryScores) (k : WasteCategoryKey) :
  (0.3 <? cs k)%float = true -> pick_winner cs <> None.
Proof.
  unfold pick_winner. intros Hthr Hw.
  destruct (loop_inv_run cs categoryScores_keys [] (None, 0%float)
              (loop_inv_init cs)) as (Hmax & Hnone & _).
  specialize (Hmax k (categoryScores_keys_complete k)).
  rewrite (Hnone Hw), Hthr in Hmax.
  assert (H0 : (0 <? 0.3)%float = true) by reflexivity.
  rewrite (float_ltb_trans 0%float 0.3%float (cs k) H0 Hthr) in Hmax.
  discriminate.
Qed.

(** C7, as stated for the enumeration of the category set, fails: on
    [{label: "tin bottle", score: 0.5}] Metal, RigidPlastic and Glass tie
    at the maximum and Metal comes first in the enumeration of the type,
    yet RigidPlastic wins.  So the winner is not always the first of the
    tied categories in that order. *)
Lemma tie_not_resolved_in_type_order :
  ~ (forall (cs : CategoryScores) (key : WasteCategoryKey),
       pick_winner cs = Some key ->
       exists pre post,
         WasteCategoryKey_enumeration = (pre ++ key :: post)%list
         /\ forall k, In k pre -> (cs k =? cs key)%float = false).
Proof.
  intros H.
  destruct (H (tally [mkPrediction "tin bottle" 0.5%float]) RigidPlastic)
    as (pre & post & Heq & Hpre); [ vm_compute; reflexivity | ].
  assert (Hin : In Metal pre).
  { unfold WasteCategoryKey_enumeration in Heq.
    destruct pre as [|a [|b pre]]; simpl in Heq.
    - discriminate.
    - injection Heq as _ Hm _. discriminate.
    - injection Heq as _ Hb _. subst b. right; left; reflexivity. }
  specialize (Hpre Metal Hin). vm_compute in Hpre. discriminate.
Qed.

(** C7, amended: a category wins the vote only with an accumulated score
    strictly above 0.3, so never with exactly 0.3; no category scores
    above the winner, and no category visited before it by the loop over
    [categoryScores] has a score equal to the winner's: among the
    categories tied at the maximum the first one wins in the order of
    that loop, which is the order of the accumulator literal (PlasticFilm,
    RigidPlastic, Metal, Glass, Cardboard, Paper, FoodOrganics) and not
    the order in which the type lists the category set. *)
Theorem vote_threshold_and_tie_break
    (cs : CategoryScores) (key : WasteCategoryKey) :
  pick_winner cs = Some key ->
  (0.3 <? cs key)%float = true
  /\ cs key <> 0.3%float
  /\ (forall k, (cs key <? cs k)%float = false)
  /\ exists pre post,
       categoryScores_keys = (pre ++ key :: post)%list
       /\ forall k, In k pre -> (cs k =? cs key)%float = false.
Proof.
  unfold pick_winner. intros Hw.
  destruct (loop_inv_run cs categoryScores_keys [] (None, 0%float)
              (loop_inv_init cs)) as (Hmax & _ & Hwin).
  destruct (Hwin key Hw) as (Hm & Hthr & pre & post & Hsplit & Hpre).
  split; [ assumption | ]. split.
  - intros Heq. rewrite Heq in Hthr. vm_compute in Hthr. discriminate.
  - split.
    + intros k. specialize (Hmax k (categoryScores_keys_complete k)).
      rewrite Hm in Hmax.
      destruct (cs key <? cs k)%float eqn:Hk; [ | reflexivity ].
      rewrite (float_ltb_trans _ _ _ Hthr Hk) in Hmax. discriminate.
    + exists pre, post. split; assumption.
Qed.

Lemma vote_threshold_and_tie_break_witness :
  let cs := tally [mkPrediction "tin bottle" 0.5%float] in
  (0.3 <? cs RigidPlastic)%float = true
  /\ cs RigidPlastic <> 0.3%float
  /\ (forall k, (cs RigidPlastic <? cs k)%float = false)
  /\ exists pre post,
       categoryScores_keys = (pre ++ RigidPlastic :: post)%list
       /\ forall k, In k pre -> (cs k =? cs RigidPlastic)%float = false.
Proof.
  apply (vote_threshold_and_tie_break
           (tally [mkPrediction "tin bottle" 0.5%float]) RigidPlastic).
  vm_compute. reflexivity.
Defined.

(** The tie of the witness above: Metal, RigidPlastic and Glass all
    reach the same score, and RigidPlastic, visited first, wins. *)
Example tie_tin_bottle :
  let cs := tally [mkPrediction "tin bottle" 0.5%float] in
  cs Metal = cs RigidPlastic /\ cs Glass = cs RigidPlastic
  /\ pick_winner cs = Some RigidPlastic.
Proof. vm_compute. repeat split. Qed.

(** C8: [getWasteDetails] depends on the first five predictions only:
    the result, the [return] taken and every accumulator are those of
    the list cut after its fifth element. *)
Theorem only_first_five_count (l : list HFPrediction) :
  getWasteDetails (Some l) = getWasteDetails (Some (firstn 5 l))
  /\ getWasteDetails_traced (Some l) = getWasteDetails_traced (Some (firstn 5 l))
  /\ forall key, tally l key = tally (firstn 5 l) key.
Proof.
  assert (Ht : getWasteDetails_traced (Some l)
               = getWasteDetails_traced (Some (firstn 5 l))).
  { destruct l as [|p rest]; [ reflexivity | ].
    change (firstn 5 (p :: rest)) with (p :: firstn 4 rest).
    rewrite !getWasteDetails_traced_cons.
    change (p :: firstn 4 rest) with (firstn 5 (p :: rest)).
    now rewrite tally_firstn. }
  unfold getWasteDetails. rewrite Ht, tally_firstn. repeat split.
Qed.

(** ** The threshold example *)

(** C4, as stated, fails: on [{label: "plastic bottle", score: 0.2}] the
    RigidPlastic accumulator is not 0.3, a category does win the vote,
    and the call does not leave through the container heuristic. *)
Lemma plastic_bottle_not_at_threshold :
  let input := [mkPrediction "plastic bottle" 0.2%float] in
  tally input RigidPlastic <> 0.3%float
  /\ pick_winner (tally input) <> None
  /\ getWasteDetails_traced (Some input)
     <> Ok (FallbackContainer,
            mkResult "plastic bottle"
              (with_note (WASTE_MAP rigid_plastic_default) container_vague_note)).
Proof.
  cbv zeta. split; [ | split ].
  - intros H.
    assert (Hlt : (0.3 <? tally [mkPrediction "plastic bottle" 0.2%float]
                            RigidPlastic)%float = true)
      by (vm_compute; reflexivity).
    rewrite H in Hlt. vm_compute in Hlt. discriminate.
  - vm_compute. discriminate.
  - vm_compute. discriminate.
Qed.

(** C4, amended: "plastic bottle" contains two RigidPlastic keywords,
    "bottle" and "plastic bottle", so with score 0.2 the RigidPlastic
    accumulator receives 0.2 + 0.1 twice, which is above 0.3 and above
    the single 0.2 + 0.1 of Glass; RigidPlastic wins the vote and the call
    returns [rigid_plastic_default], note unchanged, through the
    [switch]. *)
Theorem plastic_bottle_wins_the_vote :
  let input := [mkPrediction "plastic bottle" 0.2%float] in
  tally input RigidPlastic = (0 + (0.2 + 0.1) + (0.2 + 0.1))%float
  /\ (0.3 <? tally input RigidPlastic)%float = true
  /\ tally input Glass = (0 + (0.2 + 0.1))%float
  /\ (tally input Glass <? tally input RigidPlastic)%float = true
  /\ pick_winner (tally input) = Some RigidPlastic
  /\ getWasteDetails_traced (Some input)
     = Ok (VoteWinner RigidPlastic,
           mkResult "plastic bottle" (WASTE_MAP rigid_plastic_default))
  /\ getWasteDetails (Some input)
     = Ok (mkResult "plastic bottle" (WASTE_MAP rigid_plastic_default)).
Proof. vm_compute. repeat split. Qed.

(** In binary64 a single match at score 0.2 is already above the
    threshold: 0.2 + 0.1 is the double after 0.3. *)
Example single_match_at_02 :
  (0.3 <? 0.2 + 0.1)%float = true
  /\ pick_winner (tally [mkPrediction "jug" 0.2%float]) = Some RigidPlastic.
Proof. vm_compute. split; reflexivity. Qed.

(** ** The no-winner heuristic *)

(** C5, at the input [{label: "newspaper", score: 0.01}]: no category
    wins (Paper holds 0.11 twice), the label contains "newspaper", and
    the call returns [UNKNOWN_FALLBACK], not the paper profile: the
    test for "newspaper" sits inside the test for "bottle", "can" or
    "book". *)
Theorem newspaper_alone_is_unknown :
  let input := [mkPrediction "newspaper" 0.01%float] in
  pick_winner (tally input) = None
  /\ includes (toLowerCase "newspaper") "newspaper" = true
  /\ getWasteDetails_traced (Some input)
     = Ok (FallbackUnknown, mkResult "newspaper" (WASTE_MAP UNKNOWN_FALLBACK))
  /\ getWasteDetails (Some input)
     <> Ok (mkResult "newspaper"
              (with_note (WASTE_MAP paper_default) paper_vague_note)).
Proof. vm_compute. repeat split. discriminate. Qed.

(** The part of the heuristic that holds: without a winner and without
    the safety override, a top label containing "book" gives the paper
    profile with the overriding note. *)
Lemma book_without_winner_is_paper (p : HFPrediction) (rest : list HFPrediction) :
  is_broken_glass (toLowerCase (label p)) = false ->
  pick_winner (tally (p :: rest)) = None ->
  includes (toLowerCase (label p)) "book" = true ->
  getWasteDetails_traced (Some (p :: rest))
  = Ok (FallbackPaper,
        mkResult (label p) (with_note (WASTE_MAP paper_default) paper_vague_note)).
Proof.
  intros Hbg Hw Hbook.
  rewrite getWasteDetails_traced_cons, Hbg, Hw, Hbook.
  now rewrite !orb_true_r.
Qed.

(** Without a winner, "newspaper" reaches the paper profile only next to
    "bottle" or "can" (or "book"); alone it gives [UNKNOWN_FALLBACK]. *)
Lemma newspaper_without_winner (p : HFPrediction) (rest : list HFPrediction) :
  is_broken_glass (toLowerCase (label p)) = false ->
  pick_winner (tally (p :: rest)) = None ->
  includes (toLowerCase (label p)) "newspaper" = true ->
  includes (toLowerCase (label p)) "book" = false ->
  getWasteDetails_traced (Some (p :: rest))
  = if includes (toLowerCase (label p)) "bottle"
       || includes (toLowerCase (label p)) "can"
    then Ok (FallbackPaper,
             mkResult (label p)
               (with_note (WASTE_MAP paper_default) paper_vague_note))
    else Ok (FallbackUnknown, mkResult (label p) (WASTE_MAP UNKNOWN_FALLBACK)).
Proof.
  intros Hbg Hw Hnews Hbook.
  rewrite getWasteDetails_traced_cons, Hbg, Hw, Hnews, Hbook.
  rewrite orb_false_r. now destruct (_ || _).
Qed.

(** C10: a call that leaves through one of the two note-overriding
    returns gives the static profile of that return ([paper_default] or
    [rigid_plastic_default]) with its note replaced and nothing else
    changed: type, recyclable (true), special and compostable are those
    of the profile. *)
Theorem fallback_overrides_only_the_note
    (predictions : option (list HFPrediction)) (path : ReturnPath)
    (v : ClassificationResult) (k : WasteMapKey) :
  getWasteDetails_traced predictions = Ok (path, v) ->
  overridden_profile path = Some k ->
  getWasteDetails predictions = Ok v
  /\ type (detail v) = type (WASTE_MAP k)
  /\ recyclable (detail v) = recyclable (WASTE_MAP k)
  /\ recyclable (detail v) = true
  /\ special (detail v) = special (WASTE_MAP k)
  /\ compostable (detail v) = compostable (WASTE_MAP k)
  /\ detail v = with_note (WASTE_MAP k) (note (detail v))
  /\ note (detail v) <> note (WASTE_MAP k).
Proof.
  intros Ht Hk.
  assert (Hg : getWasteDetails predictions = Ok v)
    by (unfold getWasteDetails; now rewrite Ht).
  split; [ exact Hg | clear Hg ].
  destruct predictions as [[|p rest]|];
    [ injection Ht as <- <-; discriminate
    | | injection Ht as <- <-; discriminate ].
  rewrite getWasteDetails_traced_cons in Ht.
  destruct (is_broken_glass _); [ injection Ht as <- <-; discriminate | ].
  destruct (pick_winner _); [ injection Ht as <- <-; discriminate | ].
  destruct (_ || _); [ | injection Ht as <- <-; discriminate ].
  destruct (_ || _); injection Ht as <- <-; injection Hk as <-;
    repeat split; discriminate.
Qed.

Lemma fallback_overrides_only_the_note_witness :
  let v := mkResult "pop bottle"
             (with_note (WASTE_MAP rigid_plastic_default) container_vague_note) in
  getWasteDetails (Some [mkPrediction "pop bottle" 0.05%float]) = Ok v
  /\ type (detail v) = type (WASTE_MAP rigid_plastic_default)
  /\ recyclable (detail v) = recyclable (WASTE_MAP rigid_plastic_default)
  /\ recyclable (detail v) = true
  /\ special (detail v) = special (WASTE_MAP rigid_plastic_default)
  /\ compostable (detail v) = compostable (WASTE_MAP rigid_plastic_default)
  /\ detail v = with_note (WASTE_MAP rigid_plastic_default) (note (detail v))
  /\ note (detail v) <> note (WASTE_MAP rigid_plastic_default).
Proof.
  apply (fallback_overrides_only_the_note
           (Some [mkPrediction "pop bottle" 0.05%float]) FallbackContainer).
  - vm_compute. reflexivity.
  - reflexivity.
Defined.

(** The paper return is reached too. *)
Example comic_book_low_score :
  getWasteDetails_traced (Some [mkPrediction "comic book" 0.1%float])
  = Ok (FallbackPaper,
        mkResult "comic book" (with_note (WASTE_MAP paper_default) paper_vague_note)).
Proof. vm_compute. reflexivity. Qed.

(** ** The retry wrapper *)

(** C6, as stated, fails: with three attempts and a server that answers
    401 every time, the wrapper does not stop at the first answer; it
    waits one second, fetches again, waits two seconds, fetches a third
    time, and only then raises the authorization error. *)
Lemma unauthorized_is_retried :
  let net : Network := fun _ => Resolved (mkResponse false 401 None "{}") in
  retryFetch net 3
  = ([EvFetch; EvSleep 1000; EvFetch; EvSleep 2000; EvFetch],
     Raised unauthorized_message)
  /\ retryFetch net 3 <> ([EvFetch], Raised unauthorized_message).
Proof. vm_compute. split; [ reflexivity | discriminate ]. Qed.

(** C6, amended: a 401 answer raises the authorization error inside the
    [try] block, without reading the body and without the 5 second wait
    of a loading model, and the [catch] of the loop handles it as any
    other failure: on the last attempt the error reaches the caller with
    its message, after that single fetch and no wait; on an earlier
    attempt [i] the wrapper waits [2^i] seconds and goes on with attempt
    [i + 1]. *)
Theorem unauthorized_goes_through_catch
    (net : Network) (retries fuel i : nat) (r : Response) :
  net i = Resolved r -> ok r = false -> status r = 401%N ->
  try_block (net i) = ([EvFetch], TryThrow (ErrorObject unauthorized_message))
  /\ retry_from net retries (S fuel) i =
     if (i =? retries - 1)%nat
     then ([EvFetch], Raised unauthorized_message)
     else (EvFetch :: EvSleep (2 ^ N.of_nat i * 1000)
             :: fst (retry_from net retries fuel (S i)),
           snd (retry_from net retries fuel (S i))).
Proof.
  intros Hnet Hok Hst.
  assert (Htry : try_block (net i)
                 = ([EvFetch], TryThrow (ErrorObject unauthorized_message))).
  { unfold try_block. now rewrite Hnet, Hok, Hst. }
  split; [ exact Htry | ].
  cbn [retry_from]. rewrite Htry. cbn [errorMessage].
  destruct (i =? retries - 1)%nat; [ reflexivity | ].
  now destruct (retry_from net retries fuel (S i)).
Qed.

Lemma unauthorized_goes_through_catch_witness :
  let net : Network := fun _ => Resolved (mkResponse false 401 None "{}") in
  try_block (net 0) = ([EvFetch], TryThrow (ErrorObject unauthorized_message))
  /\ retry_from net 3 3 0 =
     (EvFetch :: EvSleep (2 ^ N.of_nat 0 * 1000) :: fst (retry_from net 3 2 1),
      snd (retry_from net 3 2 1)).
Proof.
  exact (unauthorized_goes_through_catch
           (fun _ => Resolved (mkResponse false 401 None "{}")) 3 2 0
           (mkResponse false 401 None "{}") eq_refl eq_refl eq_refl).
Defined.

(** On the last attempt the error does surface at once. *)
Example unauthorized_single_attempt :
  retryFetch (fun _ => Resolved (mkResponse false 401 None "{}")) 1
  = ([EvFetch], Raised unauthorized_message).
Proof. reflexivity. Qed.

(** ** The history list *)

Lemma addToHistory_cons (item : HistoryItem) (h : list HistoryItem) :
  addToHistory item h = item :: firstn 4 h.
Proof. reflexivity. Qed.

Lemma run_history_snoc (ops : list HistoryOp) (op : HistoryOp) :
  run_history (ops ++ [op])%list = history_step (run_history ops) op.
Proof. unfold run_history. now rewrite fold_left_app. Qed.

Lemma run_history_length (ops : list HistoryOp) :
  List.length (run_history ops) <= 5.
Proof.
  induction ops as [|op ops IH] using rev_ind; [ simpl; lia | ].
  rewrite run_history_snoc. destruct op as [item|]; cbn [history_step].
  - rewrite addToHistory_cons. cbn [List.length]. rewrite length_firstn. lia.
  - simpl. lia.
Qed.

Lemma run_history_stores (items : list HistoryItem) :
  run_history (map Store items) = firstn 5 (rev items).
Proof.
  induction items as [|item items IH] using rev_ind; [ reflexivity | ].
  rewrite map_app. cbn [map]. rewrite run_history_snoc, IH, rev_unit.
  cbn [history_step]. rewrite addToHistory_cons, firstn_firstn. reflexivity.
Qed.

(** * Further properties of the code *)

Import Status Inference RetryTraces.

(** ** Occurrences in strings *)

Lemma string_app_assoc (a b c : string) : (a ++ b) ++ c = a ++ (b ++ c).
Proof. induction a as [|x a IH]; simpl; [ reflexivity | now rewrite IH ]. Qed.

Lemma string_app_nil_r (a : string) : a ++ "" = a.
Proof. induction a as [|x a IH]; simpl; [ reflexivity | now rewrite IH ]. Qed.

Lemma prefix_iff (kw s : string) :
  prefix kw s = true <-> exists b, s = kw ++ b.
Proof.
  revert s. induction kw as [|x kw IH]; intros s; simpl.
  - destruct s; split; intros _; try reflexivity; eexists; reflexivity.
  - destruct s as [|y s]; simpl.
    + split; [ discriminate | intros [b Hb]; discriminate ].
    + destruct (ascii_dec x y) as [<- | Hne].
      * rewrite IH. split; intros [b Hb]; exists b.
        -- now rewrite Hb.
        -- now injection Hb.
      * split; [ discriminate | ].
        intros [b Hb]. injection Hb as Hxy _. congruence.
Qed.

(** [includes s kw] holds exactly when [kw] occurs in [s]. *)
Lemma includes_iff (s kw : string) :
  includes s kw = true <-> exists a b, s = a ++ kw ++ b.
Proof.
  induction s as [|y s IH]; cbn [includes].
  - rewrite orb_false_r, prefix_iff. split.
    + intros [b Hb]. exists "", b. exact Hb.
    + intros (a & b & Hab). destruct a; [ exists b; exact Hab | discriminate ].
  - rewrite orb_true_iff, prefix_iff, IH. split.
    + intros [[b Hb] | (a & b & Hab)].
      * exists "", b. exact Hb.
      * exists (String y a), b. simpl. now rewrite Hab.
    + intros (a & b & Hab). destruct a as [|x a]; simpl in Hab.
      * left. exists b. exact Hab.
      * right. exists a, b. now injection Hab.
Qed.

Lemma includes_trans (s a b : string) :
  includes s a = true -> includes a b = true -> includes s b = true.
Proof.
  rewrite !includes_iff. intros (x & y & ->) (u & v & ->).
  exists (x ++ u), (v ++ y). now rewrite !string_app_assoc.
Qed.

Lemma trimStart_suffix (s : string) : exists a, s = a ++ trimStart s.
Proof.
  induction s as [|c s [a Ha]]; simpl.
  - exists "". reflexivity.
  - destruct (is_space c).
    + exists (String c a). simpl. now rewrite <- Ha.
    + exists "". reflexivity.
Qed.

Lemma trimEnd_prefix (s : string) : exists b, s = trimEnd s ++ b.
Proof.
  induction s as [|c s [b Hb]]; simpl.
  - exists "". reflexivity.
  - destruct (trimEnd s) as [|d t] eqn:Ht.
    + destruct (is_space c).
      * exists (String c s). reflexivity.
      * exists s. reflexivity.
    + exists b. simpl. now rewrite Hb at 1.
Qed.

(** What occurs in the trimmed string occurs in the string. *)
Lemma includes_trim (s kw : string) :
  includes (trim s) kw = true -> includes s kw = true.
Proof.
  rewrite !includes_iff. unfold trim. intros (a & b & Hab).
  destruct (trimStart_suffix s) as [x Hx].
  destruct (trimEnd_prefix (trimStart s)) as [y Hy].
  exists (x ++ a), (b ++ y).
  rewrite Hx at 1. rewrite Hy at 1. rewrite Hab.
  now rewrite !string_app_assoc.
Qed.

Lemma lower_unit_idem (c : ascii) : lower_unit (lower_unit c) = lower_unit c.
Proof.
  destruct c as [[] [] [] [] [] [] [] []]; reflexivity.
Qed.

(** Lower-casing a lower-cased string changes nothing. *)
Lemma toLowerCase_idem (s : string) : toLowerCase (toLowerCase s) = toLowerCase s.
Proof.
  induction s as [|c s IH]; simpl; [ reflexivity | ].
  now rewrite lower_unit_idem, IH.
Qed.

(** ** The verdicts of the classifier *)

Ltac classify_cases p :=
  rewrite getWasteDetails_traced_cons;
  destruct (is_broken_glass (toLowerCase (label p))) eqn:Hbg;
  [ | destruct (pick_winner _) as [key|] eqn:Hwin;
      [ | destruct (includes (toLowerCase (label p)) "bottle"
                    || includes (toLowerCase (label p)) "can"
                    || includes (toLowerCase (label p)) "book") eqn:Hcont;
          [ destruct (includes (toLowerCase (label p)) "book"
                      || includes (toLowerCase (label p)) "newspaper")
              eqn:Hpaper | ] ] ].

(** X1: on a non-empty list the verdict's [rawLabel] is the label of the
    first prediction as received, neither lower-cased nor trimmed,
    whichever [return] is taken. *)
Theorem rawLabel_is_first_label (p : HFPrediction) (rest : list HFPrediction) :
  exists v, getWasteDetails (Some (p :: rest)) = Ok v /\ rawLabel v = label p.
Proof.
  unfold getWasteDetails. classify_cases p; eexists; split; reflexivity.
Qed.

Lemma verdict_profile (predictions : option (list HFPrediction)) :
  exists v k,
    getWasteDetails predictions = Ok v
    /\ type (detail v) = type (WASTE_MAP k)
    /\ recyclable (detail v) = recyclable (WASTE_MAP k)
    /\ special (detail v) = special (WASTE_MAP k)
    /\ compostable (detail v) = compostable (WASTE_MAP k)
    /\ truthy (special (detail v)) && recyclable (detail v) = false
    /\ recyclable (detail v) && truthy (compostable (detail v)) = false
    /\ truthy (special (detail v)) && truthy (compostable (detail v)) = false.
Proof.
  unfold getWasteDetails.
  destruct predictions as [[|p rest]|].
  - exists (mkResult "N/A" (WASTE_MAP UNKNOWN_FALLBACK)), UNKNOWN_FALLBACK.
    repeat split.
  - classify_cases p.
    + eexists _, broken_glass_special. split; [ reflexivity | repeat split ].
    + eexists _, (category_profile key).
      split; [ reflexivity | destruct key; repeat split ].
    + eexists _, paper_default. split; [ reflexivity | repeat split ].
    + eexists _, rigid_plastic_default. split; [ reflexivity | repeat split ].
    + eexists _, UNKNOWN_FALLBACK. split; [ reflexivity | repeat split ].
  - exists (mkResult "N/A" (WASTE_MAP UNKNOWN_FALLBACK)), UNKNOWN_FALLBACK.
    repeat split.
Qed.


(** X2: every verdict carries the type and the three flags of one entry
    of [WASTE_MAP], and at most one of special, recyclable and
    compostable holds of it. *)
Theorem verdict_is_a_profile (predictions : option (list HFPrediction)) :
  exists v k,
    getWasteDetails predictions = Ok v
    /\ type (detail v) = type (WASTE_MAP k)
    /\ recyclable (detail v) = recyclable (WASTE_MAP k)
    /\ special (detail v) = special (WASTE_MAP k)
    /\ compostable (detail v) = compostable (WASTE_MAP k)
    /\ truthy (special (detail v)) && recyclable (detail v) = false
    /\ recyclable (detail v) && truthy (compostable (detail v)) = false
    /\ truthy (special (detail v)) && truthy (compostable (detail v)) = false.
Proof. exact (verdict_profile predictions). Qed.

(** X3: the verdict is flagged special exactly when the lower-cased top
    label contains one of the four broken-glass phrases; no vote and no
    heuristic produces a special verdict. *)
Theorem special_iff_broken_glass (p : HFPrediction) (rest : list HFPrediction) :
  exists v,
    getWasteDetails (Some (p :: rest)) = Ok v
    /\ truthy (special (detail v)) = is_broken_glass (toLowerCase (label p)).
Proof.
  unfold getWasteDetails. classify_cases p;
    try (eexists; split; reflexivity).
  destruct key; eexists; split; reflexivity.
Qed.

Lemma score_prediction_lower (cs : CategoryScores) (p : HFPrediction) :
  score_prediction cs (mkPrediction (toLowerCase (label p)) (score p))
  = score_prediction cs p.
Proof. unfold score_prediction. simpl. now rewrite toLowerCase_idem. Qed.

Lemma tally_lower (l : list HFPrediction) :
  tally (map (fun p => mkPrediction (toLowerCase (label p)) (score p)) l)
  = tally l.
Proof.
  unfold tally. rewrite firstn_map. generalize initialScores.
  induction (firstn 5 l) as [|p ps IH]; intros cs; simpl; [ reflexivity | ].
  now rewrite score_prediction_lower, IH.
Qed.

(** X4: the classification does not depend on the case of the labels:
    lower-casing every label leaves the [return] taken and the disposal
    detail unchanged (only [rawLabel] follows the label). *)
Theorem classification_ignores_case (l : list HFPrediction) :
  js_map (fun r => (fst r, detail (snd r)))
    (getWasteDetails_traced
       (Some (map (fun p => mkPrediction (toLowerCase (label p)) (score p)) l)))
  = js_map (fun r => (fst r, detail (snd r)))
      (getWasteDetails_traced (Some l)).
Proof.
  destruct l as [|p rest]; [ reflexivity | ].
  pose proof (tally_lower (p :: rest)) as Ht. cbn [map] in *.
  rewrite !getWasteDetails_traced_cons, Ht. cbn [label].
  rewrite !toLowerCase_idem.
  destruct (is_broken_glass _); [ reflexivity | ].
  destruct (pick_winner _); [ reflexivity | ].
  destruct (_ || _); [ | reflexivity ].
  destruct (_ || _); reflexivity.
Qed.

(** ** Accumulators and keyword matches *)

Lemma key_eqb_eq (a b : WasteCategoryKey) : key_eqb a b = true <-> a = b.
Proof. destruct a, b; simpl; split; congruence. Qed.

Lemma score_category_other (cl : string) (w : float) (cs : CategoryScores)
    (key k : WasteCategoryKey) :
  key_eqb k key = false -> score_category cl w cs key k = cs k.
Proof.
  intros Hne. unfold score_category. revert cs.
  induction (KEYWORD_SCORES key) as [|kw kws IH]; intros cs; simpl;
    [ reflexivity | ].
  rewrite IH. unfold score_keyword, bump.
  destruct (includes cl kw); [ now rewrite Hne | reflexivity ].
Qed.

Lemma score_category_no_match (cl : string) (w : float) (cs : CategoryScores)
    (k : WasteCategoryKey) :
  existsb (includes cl) (KEYWORD_SCORES k) = false ->
  score_category cl w cs k k = cs k.
Proof.
  unfold score_category. revert cs.
  induction (KEYWORD_SCORES k) as [|kw kws IH]; intros cs; simpl;
    [ reflexivity | ].
  intros H. apply orb_false_iff in H as [Hkw Hkws].
  rewrite (IH _ Hkws). unfold score_keyword. now rewrite Hkw.
Qed.

Lemma score_prediction_no_match (cs : CategoryScores) (p : HFPrediction)
    (k : WasteCategoryKey) :
  existsb (includes (trim (toLowerCase (label p)))) (KEYWORD_SCORES k) = false ->
  score_prediction cs p k = cs k.
Proof.
  intros H. unfold score_prediction. cbv zeta. revert cs.
  induction KEYWORD_SCORES_keys as [|key keys IH]; intros cs; simpl;
    [ reflexivity | ].
  rewrite IH. destruct (key_eqb k key) eqn:Hk.
  - apply key_eqb_eq in Hk as <-. now apply score_category_no_match.
  - now apply score_category_other.
Qed.

Lemma tally_no_match (l : list HFPrediction) (k : WasteCategoryKey) :
  existsb (fun p => existsb (includes (trim (toLowerCase (label p))))
                      (KEYWORD_SCORES k)) (firstn 5 l) = false ->
  tally l k = 0%float.
Proof.
  unfold tally.
  assert (Hgen : forall ps cs,
            existsb (fun p => existsb (includes (trim (toLowerCase (label p))))
                                (KEYWORD_SCORES k)) ps = false ->
            fold_left score_prediction ps cs k = cs k).
  { induction ps as [|p ps IH]; intros cs H; simpl in *; [ reflexivity | ].
    apply orb_false_iff in H as [Hp Hps].
    rewrite (IH _ Hps). now apply score_prediction_no_match. }
  intros H. now rewrite (Hgen _ _ H).
Qed.

Lemma winner_match (l : list HFPrediction) (k : WasteCategoryKey) :
  pick_winner (tally l) = Some k ->
  exists p kw,
    In p (firstn 5 l) /\ In kw (KEYWORD_SCORES k)
    /\ includes (trim (toLowerCase (label p))) kw = true.
Proof.
  intros Hw.
  destruct (existsb (fun p => existsb (includes (trim (toLowerCase (label p))))
                                (KEYWORD_SCORES k)) (firstn 5 l)) eqn:He.
  - apply existsb_exists in He as (p & Hp & Hk).
    apply existsb_exists in Hk as (kw & Hkw & Hin).
    exists p, kw. repeat split; assumption.
  - pose proof (tally_no_match l k He) as H0.
    destruct (loop_inv_run (tally l) categoryScores_keys [] (None, 0%float)
                (loop_inv_init (tally l))) as (_ & _ & Hwin).
    destruct (Hwin k Hw) as (_ & Hthr & _).
    rewrite H0 in Hthr. vm_compute in Hthr. discriminate.
Qed.

(** X5: a category wins the vote only if one of its keywords occurs in
    the cleaned (lower-cased, trimmed) label of one of the first five
    predictions. *)
Theorem winner_has_a_matching_keyword
    (l : list HFPrediction) (k : WasteCategoryKey) :
  pick_winner (tally l) = Some k ->
  exists p kw,
    In p (firstn 5 l) /\ In kw (KEYWORD_SCORES k)
    /\ includes (trim (toLowerCase (label p))) kw = true.
Proof. exact (winner_match l k). Qed.

Lemma winner_has_a_matching_keyword_witness :
  exists p kw,
    In p (firstn 5 [mkPrediction "Banana Peel" 0.8%float])
    /\ In kw (KEYWORD_SCORES FoodOrganics)
    /\ includes (trim (toLowerCase (label p))) kw = true.
Proof.
  apply (winner_has_a_matching_keyword
           [mkPrediction "Banana Peel" 0.8%float] FoodOrganics).
  vm_compute. reflexivity.
Defined.

Lemma phrase_without_keyword (s phrase kw : string) (k : WasteCategoryKey) :
  (forall k' kw', In kw' (KEYWORD_SCORES k') -> includes s kw' = false) ->
  In kw (KEYWORD_SCORES k) -> includes phrase kw = true ->
  includes s phrase = false.
Proof.
  intros Hno Hin Hsub. destruct (includes s phrase) eqn:Hs; [ | reflexivity ].
  rewrite <- (Hno k kw Hin). symmetry. exact (includes_trans _ _ _ Hs Hsub).
Qed.

(** X6: when no keyword of [KEYWORD_SCORES] occurs in the lower-cased
    label of any of the first five predictions, no category wins, the
    safety override and both heuristics stay silent (each of their
    phrases contains a keyword), and the verdict is [UNKNOWN_FALLBACK]
    with the first label as [rawLabel]. *)
Theorem no_keyword_is_unknown (p : HFPrediction) (rest : list HFPrediction) :
  (forall q k kw,
     In q (firstn 5 (p :: rest)) -> In kw (KEYWORD_SCORES k) ->
     includes (toLowerCase (label q)) kw = false) ->
  getWasteDetails_traced (Some (p :: rest))
  = Ok (FallbackUnknown, mkResult (label p) (WASTE_MAP UNKNOWN_FALLBACK)).
Proof.
  intros Hno.
  assert (Hp : forall k kw, In kw (KEYWORD_SCORES k) ->
                 includes (toLowerCase (label p)) kw = false).
  { intros k kw. apply Hno. left. reflexivity. }
  assert (Hw : pick_winner (tally (p :: rest)) = None).
  { destruct (pick_winner (tally (p :: rest))) as [k|] eqn:Hk; [ | reflexivity ].
    destruct (winner_match _ _ Hk) as (q & kw & Hq & Hkw & Hinc).
    apply includes_trim in Hinc. rewrite (Hno q k kw Hq Hkw) in Hinc.
    discriminate. }
  rewrite getWasteDetails_traced_cons, Hw. unfold is_broken_glass.
  rewrite (phrase_without_keyword _ "broken glass" "glass" Glass Hp),
          (phrase_without_keyword _ "shattered" "shattered" Glass Hp),
          (phrase_without_keyword _ "broken cup" "cup" Glass Hp),
          (phrase_without_keyword _ "cut glass" "cut glass" Glass Hp),
          (phrase_without_keyword _ "bottle" "bottle" RigidPlastic Hp),
          (phrase_without_keyword _ "can" "can" Metal Hp),
          (phrase_without_keyword _ "book" "book" Paper Hp);
    try reflexivity; simpl; tauto.
Qed.

Lemma no_keyword_is_unknown_witness :
  getWasteDetails_traced
    (Some [mkPrediction "Golden Retriever" 0.97%float;
           mkPrediction "Labrador" 0.02%float])
  = Ok (FallbackUnknown, mkResult "Golden Retriever" (WASTE_MAP UNKNOWN_FALLBACK)).
Proof.
  apply (no_keyword_is_unknown (mkPrediction "Golden Retriever" 0.97%float)
           [mkPrediction "Labrador" 0.02%float]).
  intros q k kw Hq Hkw.
  destruct Hq as [<- | [<- | []]]; destruct k; simpl in Hkw;
    repeat (destruct Hkw as [<- | Hkw]; [ reflexivity | ]); contradiction.
Defined.

(** ** What the components show for a verdict *)

(** X7: for every verdict of the classifier the status text of
    [RecyclabilityStatus], the indicator colour and the badge of
    [HistoryCard] form one of four consistent combinations; a special
    verdict is shown red with the badge TRASH, never RECYCLE. *)
Theorem status_indicator_badge_agree (predictions : option (list HFPrediction)) :
  exists v,
    getWasteDetails predictions = Ok v
    /\ forall (src : string) (ts : Z),
         let item := mkHistoryItem v src ts in
         let shown := (text (statusOf v), getIndicatorColor item, badgeLabel item) in
         shown = ("Special Disposal Required", "bg-red-500", "TRASH")
         \/ shown = ("Recyclable", "bg-green-500", "RECYCLE")
         \/ shown = ("Compostable / Green Bin", "bg-yellow-500", "COMPOST")
         \/ shown = ("General Waste (Not Recyclable)", "bg-gray-500", "TRASH").
Proof.
  destruct (verdict_profile predictions)
    as (v & k & Hv & _ & Hr & Hs & Hc & _).
  exists v. split; [ exact Hv | ].
  intros src ts. cbv zeta.
  unfold statusOf, RecyclabilityStatus, getIndicatorColor, badgeLabel.
  cbn [result]. rewrite Hr, Hs, Hc.
  destruct k; simpl; tauto.
Qed.

(** ** The retry wrapper, attempt by attempt *)

Section RetryLoop.

Variable net : Network.
Variable retries : nat.

Lemma retry_from_step (fuel i : nat) :
  retry_from net retries (S fuel) i =
  match snd (try_block (net i)) with
  | TryReturn response => (fst (try_block (net i)), Returned response)
  | TryContinue =>
      ((fst (try_block (net i)) ++ fst (retry_from net retries fuel (S i)))%list,
       snd (retry_from net retries fuel (S i)))
  | TryThrow v =>
      if (i =? retries - 1)%nat
      then (fst (try_block (net i)), Raised (errorMessage v))
      else ((fst (try_block (net i))
               ++ EvSleep (2 ^ N.of_nat i * 1000)
               :: fst (retry_from net retries fuel (S i)))%list,
            snd (retry_from net retries fuel (S i)))
  end.
Proof.
  cbn [retry_from]. destruct (try_block (net i)) as [evs [r | | v]]; cbn [fst snd].
  - reflexivity.
  - now destruct (retry_from net retries fuel (S i)).
  - destruct (i =? retries - 1)%nat; [ reflexivity | ].
    now destruct (retry_from net retries fuel (S i)).
Qed.

(** A loading test that gives true has not thrown. *)
Lemma is_loading_evaluates (r : Response) :
  is_loading r = true -> loading_test_throws r = None.
Proof.
  unfold is_loading, loading_test_throws.
  destruct (details r) as [m | [ | e | items | m] j]; try discriminate;
    reflexivity.
Qed.

Lemma try_block_returns (o : FetchOutcome) (r : Response) :
  snd (try_block o) = TryReturn r -> o = Resolved r /\ ok r = true.
Proof.
  unfold try_block. destruct o as [resp | v]; [ | discriminate ].
  destruct (ok resp) eqn:Hok; simpl.
  - intros [= <-]. split; [ reflexivity | exact Hok ].
  - destruct (status resp =? 401)%N; [ discriminate | ].
    destruct (loading_test_throws resp); [ discriminate | ].
    destruct (is_loading resp); discriminate.
Qed.

Lemma try_block_one_fetch (o : FetchOutcome) :
  fetch_count (fst (try_block o)) = 1.
Proof.
  unfold try_block. destruct o as [resp | v]; [ | reflexivity ].
  destruct (negb (ok resp)); [ | reflexivity ].
  destruct (status resp =? 401)%N; [ reflexivity | ].
  destruct (loading_test_throws resp); [ reflexivity | ].
  destruct (is_loading resp); reflexivity.
Qed.

Lemma fetch_count_app (a b : list Event) :
  fetch_count (a ++ b) = fetch_count a + fetch_count b.
Proof.
  induction a as [|[|ms] a IH]; simpl; [ reflexivity | | exact IH ].
  now rewrite IH.
Qed.

Lemma retry_from_returned (fuel i : nat) (r : Response) :
  snd (retry_from net retries fuel i) = Returned r ->
  ok r = true /\ exists j, i <= j < i + fuel /\ net j = Resolved r.
Proof.
  revert i. induction fuel as [|fuel IH]; intros i; [ discriminate | ].
  rewrite retry_from_step.
  destruct (snd (try_block (net i))) as [resp | | v] eqn:Htry; cbn [snd].
  - intros [= ->]. apply try_block_returns in Htry as [Hnet Hok].
    split; [ exact Hok | ]. exists i. split; [ lia | exact Hnet ].
  - intros H. destruct (IH _ H) as (Hok & j & Hj & Hnet).
    split; [ exact Hok | ]. exists j. split; [ lia | exact Hnet ].
  - destruct (i =? retries - 1)%nat; cbn [snd]; [ discriminate | ].
    intros H. destruct (IH _ H) as (Hok & j & Hj & Hnet).
    split; [ exact Hok | ]. exists j. split; [ lia | exact Hnet ].
Qed.

Lemma retry_from_fetch_count (fuel i : nat) :
  fetch_count (fst (retry_from net retries fuel i)) <= fuel
  /\ (1 <= fuel -> 1 <= fetch_count (fst (retry_from net retries fuel i))).
Proof.
  revert i. induction fuel as [|fuel IH]; intros i; [ simpl; lia | ].
  rewrite retry_from_step. pose proof (try_block_one_fetch (net i)) as H1.
  destruct (IH (S i)) as [Hle _].
  destruct (snd (try_block (net i))) as [resp | | v]; cbn [fst].
  - lia.
  - rewrite fetch_count_app. lia.
  - destruct (i =? retries - 1)%nat; cbn [fst]; [ lia | ].
    rewrite fetch_count_app. simpl. lia.
Qed.

Lemma retry_from_loading (fuel i : nat) :
  (forall j, i <= j < i + fuel ->
     match net j with
     | Resolved r => ok r = false /\ status r <> 401%N /\ is_loading r = true
     | Rejected _ => False
     end) ->
  retry_from net retries fuel i
  = (loading_trace fuel, Raised "Fetch failed after all retries.").
Proof.
  revert i. induction fuel as [|fuel IH]; intros i H; [ reflexivity | ].
  rewrite retry_from_step, IH by (intros j Hj; apply H; lia).
  specialize (H i ltac:(lia)). unfold try_block.
  destruct (net i) as [r | v]; [ | contradiction ].
  destruct H as (Hok & Hst & Hload).
  apply N.eqb_neq in Hst.
  rewrite Hok, Hst, (is_loading_evaluates r Hload), Hload. reflexivity.
Qed.

Lemma retry_from_failing (fuel i : nat) :
  i + S fuel = retries ->
  (forall j, i <= j < retries ->
     match net j with
     | Resolved r => ok r = false /\ (status r = 401%N \/ is_loading r = false)
     | Rejected _ => True
     end) ->
  exists v,
    try_block (net (retries - 1)) = ([EvFetch], TryThrow v)
    /\ retry_from net retries (S fuel) i
       = (backoff_trace (S fuel) i, Raised (errorMessage v)).
Proof.
  assert (Hthrow : forall j,
            match net j with
            | Resolved r => ok r = false /\ (status r = 401%N \/ is_loading r = false)
            | Rejected _ => True
            end ->
            exists v, try_block (net j) = ([EvFetch], TryThrow v)).
  { intros j Hj. unfold try_block. destruct (net j) as [r | v].
    - destruct Hj as [Hok Hcase]. rewrite Hok. simpl.
      destruct (status r =? 401)%N eqn:Hst; [ eexists; reflexivity | ].
      destruct Hcase as [H401 | Hload].
      + rewrite H401 in Hst. discriminate.
      + destruct (loading_test_throws r); [ eexists; reflexivity | ].
        rewrite Hload. eexists; reflexivity.
    - eexists; reflexivity. }
  revert i. induction fuel as [|fuel IH]; intros i Hi H.
  - destruct (Hthrow i (H i ltac:(lia))) as [v Hv].
    exists v. replace (retries - 1) with i by lia. split; [ exact Hv | ].
    rewrite retry_from_step, Hv. cbn [fst snd].
    replace (i =? retries - 1)%nat with true
      by (symmetry; apply Nat.eqb_eq; lia).
    reflexivity.
  - destruct (IH (S i) ltac:(lia) ltac:(intros j Hj; apply H; lia))
      as (v & Hlast & Hrun).
    exists v. split; [ exact Hlast | ].
    destruct (Hthrow i (H i ltac:(lia))) as [w Hw].
    rewrite retry_from_step, Hw, Hrun. cbn [fst snd].
    replace (i =? retries - 1)%nat with false
      by (symmetry; apply Nat.eqb_neq; lia).
    reflexivity.
Qed.

End RetryLoop.

(** X8: [retryFetch] only ever returns a response that is ok, and that
    response is the one an attempt below [retries] received. *)
Theorem retryFetch_returns_ok_response
    (net : Network) (retries : nat) (events : list Event) (r : Response) :
  retryFetch net retries = (events, Returned r) ->
  ok r = true /\ exists j, j < retries /\ net j = Resolved r.
Proof.
  unfold retryFetch. intros H.
  destruct (retry_from_returned net retries retries 0 r) as (Hok & j & Hj & Hnet).
  - now rewrite H.
  - split; [ exact Hok | ]. exists j. split; [ lia | exact Hnet ].
Qed.

Lemma retryFetch_returns_ok_response_witness :
  let good := mkResponse true 200 None "" in
  ok good = true
  /\ exists j, j < 3
       /\ (fun i => if (i =? 0)%nat
                    then Resolved (mkResponse false 503 None "{}")
                    else Resolved good) j = Resolved good.
Proof.
  exact (retryFetch_returns_ok_response
           (fun i => if (i =? 0)%nat
                     then Resolved (mkResponse false 503 None "{}")
                     else Resolved (mkResponse true 200 None ""))
           3 [EvFetch; EvSleep 1000; EvFetch]
           (mkResponse true 200 None "") eq_refl).
Defined.

(** X9: [retryFetch] makes at most [retries] fetches, whatever the
    network does, and at least one as soon as [retries] is positive. *)
Theorem retryFetch_fetch_count (net : Network) (retries : nat) :
  fetch_count (fst (retryFetch net retries)) <= retries
  /\ 1 <= fetch_count (fst (retryFetch net (S retries))).
Proof.
  unfold retryFetch. split.
  - apply retry_from_fetch_count.
  - apply retry_from_fetch_count. lia.
Qed.

(** X10: when every attempt finds the model loading (a response that is
    not ok, not a 401, whose error text contains "is currently loading"),
    the wrapper waits a fixed 5 seconds after each fetch, the last one
    included, and ends with the generic message, not with the server's
    error. *)
Theorem retryFetch_model_loading (net : Network) (retries : nat) :
  (forall j, j < retries ->
     match net j with
     | Resolved r => ok r = false /\ status r <> 401%N /\ is_loading r = true
     | Rejected _ => False
     end) ->
  retryFetch net retries
  = (loading_trace retries, Raised "Fetch failed after all retries.").
Proof.
  intros H. unfold retryFetch. apply retry_from_loading.
  intros j Hj. apply H. lia.
Qed.

Lemma retryFetch_model_loading_witness :
  retryFetch
    (fun _ => Resolved
       (mkResponse false 503
          (Some "Model google/vit-base-patch16-224 is currently loading") "{}"))
    3
  = ([EvFetch; EvSleep 5000; EvFetch; EvSleep 5000; EvFetch; EvSleep 5000],
     Raised "Fetch failed after all retries.").
Proof.
  apply (retryFetch_model_loading
           (fun _ => Resolved
              (mkResponse false 503
                 (Some "Model google/vit-base-patch16-224 is currently loading")
                 "{}")) 3).
  intros j _. repeat split. discriminate.
Defined.

(** X11: when every attempt fails in the [catch] (the fetch rejects, or
    the response is not ok and is a 401 or its loading test is false or
    throws), the
    wrapper makes exactly [retries] fetches, waits [2^i] seconds between
    attempts [i] and [i + 1], does not wait after the last one, and raises
    the message of the last attempt's error. *)
Theorem retryFetch_exponential_backoff (net : Network) (n : nat) :
  (forall j, j < S n ->
     match net j with
     | Resolved r => ok r = false /\ (status r = 401%N \/ is_loading r = false)
     | Rejected _ => True
     end) ->
  exists v,
    try_block (net n) = ([EvFetch], TryThrow v)
    /\ retryFetch net (S n) = (backoff_trace (S n) 0, Raised (errorMessage v)).
Proof.
  intros H. unfold retryFetch.
  destruct (retry_from_failing net (S n) n 0 eq_refl) as (v & Hlast & Hrun).
  - intros j Hj. apply H. lia.
  - exists v. split; [ | exact Hrun ].
    now replace (S n - 1) with n in Hlast by lia.
Qed.

Lemma retryFetch_exponential_backoff_witness :
  exists v,
    try_block ((fun _ => Rejected (ErrorObject "Failed to fetch")) 2)
      = ([EvFetch], TryThrow v)
    /\ retryFetch (fun _ => Rejected (ErrorObject "Failed to fetch")) 3
       = (backoff_trace 3 0, Raised (errorMessage v)).
Proof.
  apply (retryFetch_exponential_backoff
           (fun _ => Rejected (ErrorObject "Failed to fetch")) 2).
  intros j _. exact I.
Defined.

Example backoff_three_attempts :
  backoff_trace 3 0 = [EvFetch; EvSleep 1000; EvFetch; EvSleep 2000; EvFetch].
Proof. reflexivity. Qed.

(** ** One run of the inference handler *)

(** A run stops at one of its three early [return]s, or goes through the
    [try] block with a file and the state reset for the request. *)
Lemma runInference_cases (env : InferenceEnv) (s : AppState) :
  (HF_API_TOKEN env = Some ""
   /\ runInference env s = (setError token_missing_message s, []))
  \/ (HF_API_TOKEN env <> Some "" /\ isCameraMode s = true
      /\ snd (captureImage (capture env) s) = None
      /\ runInference env s
         = (setLoading false
              (setIsCameraMode false (fst (captureImage (capture env) s))), []))
  \/ (HF_API_TOKEN env <> Some "" /\ isCameraMode s = false
      /\ imageFile s = None
      /\ runInference env s
         = (setError
              "Please upload an image or enable camera mode before classifying."
              s, []))
  \/ (HF_API_TOKEN env <> Some ""
      /\ exists s1 file,
           ((isCameraMode s = true
             /\ snd (captureImage (capture env) s) = Some file
             /\ s1 = setIsCameraMode false (fst (captureImage (capture env) s)))
            \/ (isCameraMode s = false /\ imageFile s = Some file /\ s1 = s))
           /\ runInference env s
              = (setLoading false
                   (fst (inference_try env file
                           (setClassification None
                              (setError "" (setLoading true s1))))),
                 snd (inference_try env file
                        (setClassification None
                           (setError "" (setLoading true s1)))))).
Proof.
  unfold runInference.
  destruct (HF_API_TOKEN env) as [[|c tok]|] eqn:Htok.
  - left. split; reflexivity.
  - right. destruct (isCameraMode s) eqn:Hcam.
    + destruct (captureImage (capture env) s) as [s' [file|]] eqn:Hcap;
        cbn [fst snd].
      * right; right. split; [ discriminate | ]. exists (setIsCameraMode false s'), file.
        split; [ left; repeat split | ].
        now destruct (inference_try env file _).
      * left. repeat split. discriminate.
    + destruct (imageFile s) as [file|] eqn:Hfile.
      * right; right. split; [ discriminate | ]. exists s, file.
        split; [ right; repeat split | ].
        now destruct (inference_try env file _).
      * right; left. repeat split. discriminate.
  - right. destruct (isCameraMode s) eqn:Hcam.
    + destruct (captureImage (capture env) s) as [s' [file|]] eqn:Hcap;
        cbn [fst snd].
      * right; right. split; [ discriminate | ]. exists (setIsCameraMode false s'), file.
        split; [ left; repeat split | ].
        now destruct (inference_try env file _).
      * left. repeat split. discriminate.
    + destruct (imageFile s) as [file|] eqn:Hfile.
      * right; right. split; [ discriminate | ]. exists s, file.
        split; [ right; repeat split | ].
        now destruct (inference_try env file _).
      * right; left. repeat split. discriminate.
Qed.

(** The [try] block either stores a verdict, or sets a non-empty error
    and leaves the rest of the state alone. *)
Lemma inference_try_cases (env : InferenceEnv) (file : File) (s : AppState) :
  (exists b64 r preds v,
      base64 env = Fulfilled b64 /\ arrayBuffer env = Fulfilled tt
      /\ snd (retryFetch (net env) 3) = Returned r
      /\ json env = Fulfilled (JArray preds) /\ preds <> []
      /\ getWasteDetails (Some preds) = Ok v
      /\ inference_try env file s
         = (setHistory (addToHistory (mkHistoryItem v b64 (now env)))
              (setClassification (Some v) s),
            fst (retryFetch (net env) 3)))
  \/ (exists msg events,
        msg <> ""
        /\ inference_try env file s = (setError msg s, events)
        /\ ((events = [] /\ (exists err, base64 env = Failed err
                              \/ arrayBuffer env = Failed err))
            \/ (events = fst (retryFetch (net env) 3)
                /\ exists b64, base64 env = Fulfilled b64
                               /\ arrayBuffer env = Fulfilled tt))).
Proof.
  unfold inference_try, inference_catch.
  destruct (base64 env) as [b64 | err] eqn:Hb.
  2:{ right. eexists _, []. split; [ | split; [ reflexivity | ] ].
      - destruct err; discriminate.
      - left. split; [ reflexivity | ]. exists err. now left. }
  destruct (arrayBuffer env) as [[] | err] eqn:Ha.
  2:{ right. eexists _, []. split; [ | split; [ reflexivity | ] ].
      - destruct err; discriminate.
      - left. split; [ reflexivity | ]. exists err. now right. }
  destruct (retryFetch (net env) 3) as [events [r | m]] eqn:Hr; cbn [fst snd].
  2:{ right. eexists _, events. split; [ | split; [ reflexivity | ] ].
      - discriminate.
      - right. split; [ reflexivity | ]. now exists b64. }
  destruct (json env) as [[[|p l] | [e|] | ] | err] eqn:Hj.
  - right. eexists _, events. split; [ | split; [ reflexivity | ] ].
    + discriminate.
    + right. split; [ reflexivity | ]. now exists b64.
  - destruct (getWasteDetails (Some (p :: l))) as [v | e] eqn:Hg.
    + left. exists b64, r, (p :: l), v. repeat split; try assumption.
      discriminate.
    + right. eexists _, events. split; [ | split; [ reflexivity | ] ].
      * discriminate.
      * right. split; [ reflexivity | ]. now exists b64.
  - right. eexists _, events. split; [ | split; [ reflexivity | ] ].
    + discriminate.
    + right. split; [ reflexivity | ]. now exists b64.
  - right. eexists _, events. split; [ | split; [ reflexivity | ] ].
    + discriminate.
    + right. split; [ reflexivity | ]. now exists b64.
  - right. eexists _, events. split; [ | split; [ reflexivity | ] ].
    + discriminate.
    + right. split; [ reflexivity | ]. now exists b64.
  - right. eexists _, events. split; [ | split; [ reflexivity | ] ].
    + destruct err; discriminate.
    + right. split; [ reflexivity | ]. now exists b64.
Qed.

Lemma captureImage_frame (o : CaptureOutcome) (s : AppState) :
  history (fst (captureImage o s)) = history s
  /\ classification (fst (captureImage o s)) = classification s
  /\ loading (fst (captureImage o s)) = loading s.
Proof. destruct o; repeat split. Qed.

Lemma captureImage_captured (o : CaptureOutcome) (s : AppState) (file : File) :
  snd (captureImage o s) = Some file -> exists url, o = CaptureBlob url.
Proof. destruct o; try discriminate. intros _. eexists; reflexivity. Qed.

(** What a run does to the history, the classification and the error. *)
Lemma runInference_result (env : InferenceEnv) (s : AppState) :
  (history (fst (runInference env s)) = history s
   /\ (classification (fst (runInference env s)) = classification s
       \/ (classification (fst (runInference env s)) = None
           /\ error (fst (runInference env s)) <> "")))
  \/ exists preds v b64 r,
       json env = Fulfilled (JArray preds) /\ preds <> []
       /\ base64 env = Fulfilled b64
       /\ snd (retryFetch (net env) 3) = Returned r
       /\ getWasteDetails (Some preds) = Ok v
       /\ classification (fst (runInference env s)) = Some v
       /\ error (fst (runInference env s)) = ""
       /\ history (fst (runInference env s))
          = addToHistory (mkHistoryItem v b64 (now env)) (history s).
Proof.
  destruct (runInference_cases env s)
    as [(Htok & Hrun) | [(Htok & Hcam & Hcap & Hrun)
       | [(Htok & Hcam & Hfile & Hrun) | (Htok & s1 & file & Hsrc & Hrun)]]];
    rewrite Hrun; cbn [fst].
  - left. split; [ reflexivity | left; reflexivity ].
  - left. destruct (captureImage_frame (capture env) s) as (Hh & Hc & _).
    split; [ exact Hh | left; exact Hc ].
  - left. split; [ reflexivity | left; reflexivity ].
  - assert (Hs1 : history s1 = history s).
    { destruct Hsrc as [(_ & _ & ->) | (_ & _ & ->)]; [ | reflexivity ].
      apply captureImage_frame. }
    destruct (inference_try_cases env file
                (setClassification None (setError "" (setLoading true s1))))
      as [(b64 & r & preds & v & Hb & Ha & Hr & Hj & Hne & Hg & Htry)
         | (msg & events & Hmsg & Htry & _)];
      rewrite Htry; cbn [fst].
    + right. exists preds, v, b64, r. simpl. rewrite Hs1. repeat split; assumption.
    + left. simpl. split; [ exact Hs1 | right; split; [ reflexivity | exact Hmsg ] ].
Qed.

Lemma runInference_loading (env : InferenceEnv) (s : AppState) :
  loading s = false -> loading (fst (runInference env s)) = false.
Proof.
  intros H.
  destruct (runInference_cases env s)
    as [(Htok & Hrun) | [(Htok & Hcam & Hcap & Hrun)
       | [(Htok & Hcam & Hfile & Hrun) | (Htok & s1 & file & Hsrc & Hrun)]]];
    rewrite Hrun; try reflexivity; exact H.
Qed.


(** X12: a run started while nothing is loading never leaves the
    loading flag set, on any of its paths, early returns and failures
    included. *)
Theorem runInference_stops_loading (env : InferenceEnv) (s : AppState) :
  loading s = false -> loading (fst (runInference env s)) = false.
Proof. exact (runInference_loading env s). Qed.

Lemma runInference_stops_loading_witness :
  loading
    (fst (runInference
            (mkEnv None CaptureNoContext (Fulfilled "data:image/png;base64,AA")
               (Fulfilled tt)
               (fun _ => Resolved (mkResponse false 401 None "{}"))
               (Fulfilled JPrimitive) 0%Z (fun _ => "TypeError"))
            (setImageFile (Some (mkFile "can.png" "image/png")) initialState)))
  = false.
Proof.
  apply (runInference_stops_loading
           (mkEnv None CaptureNoContext (Fulfilled "data:image/png;base64,AA")
              (Fulfilled tt)
              (fun _ => Resolved (mkResponse false 401 None "{}"))
              (Fulfilled JPrimitive) 0%Z (fun _ => "TypeError"))
           (setImageFile (Some (mkFile "can.png" "image/png")) initialState)).
  reflexivity.
Defined.

(** X13: a run leaves the history as it was, or puts exactly one item at
    its head: the verdict of [getWasteDetails] on the non-empty array the
    model answered, with the image read before the request and the time
    of the run; in that case the same verdict is the classification
    shown and the error is empty. *)
Theorem runInference_history_update (env : InferenceEnv) (s : AppState) :
  history (fst (runInference env s)) = history s
  \/ exists preds v b64 r,
       json env = Fulfilled (JArray preds) /\ preds <> []
       /\ base64 env = Fulfilled b64
       /\ snd (retryFetch (net env) 3) = Returned r
       /\ getWasteDetails (Some preds) = Ok v
       /\ classification (fst (runInference env s)) = Some v
       /\ error (fst (runInference env s)) = ""
       /\ history (fst (runInference env s))
          = addToHistory (mkHistoryItem v b64 (now env)) (history s).
Proof.
  destruct (runInference_result env s) as [[H _] | H]; [ left | right ];
    exact H.
Qed.

(** X14: a run reaches the network only with a token other than the
    empty string, an image to send (the uploaded file, or in camera mode a
    captured blob) and both reads of the file fulfilled; the fetches and
    waits are then those of [retryFetch] with three attempts. *)
Theorem fetch_needs_token_and_image (env : InferenceEnv) (s : AppState) :
  1 <= fetch_count (snd (runInference env s)) ->
  HF_API_TOKEN env <> Some ""
  /\ ((isCameraMode s = true /\ exists url, capture env = CaptureBlob url)
      \/ (isCameraMode s = false /\ exists file, imageFile s = Some file))
  /\ (exists b64, base64 env = Fulfilled b64)
  /\ arrayBuffer env = Fulfilled tt
  /\ snd (runInference env s) = fst (retryFetch (net env) 3).
Proof.
  destruct (runInference_cases env s)
    as [(Htok & Hrun) | [(Htok & Hcam & Hcap & Hrun)
       | [(Htok & Hcam & Hfile & Hrun) | (Htok & s1 & file & Hsrc & Hrun)]]];
    rewrite Hrun; cbn [snd]; try (simpl; lia).
  intros Hn. split; [ exact Htok | ]. split.
  { destruct Hsrc as [(Hcam & Hcap & _) | (Hcam & Hfile & _)].
    - left. split; [ exact Hcam | ]. exact (captureImage_captured _ _ _ Hcap).
    - right. split; [ exact Hcam | ]. now exists file. }
  destruct (inference_try_cases env file
              (setClassification None (setError "" (setLoading true s1))))
    as [(b64 & r & preds & v & Hb & Ha & Hr & Hj & Hne & Hg & Htry)
       | (msg & events & Hmsg & Htry & [(-> & _) | (-> & b64 & Hb & Ha)])];
    rewrite Htry in *; cbn [snd] in *.
  - split; [ now exists b64 | ]. split; [ exact Ha | reflexivity ].
  - simpl in Hn. lia.
  - split; [ now exists b64 | ]. split; [ exact Ha | reflexivity ].
Qed.

Lemma fetch_needs_token_and_image_witness :
  let env := mkEnv (Some "hf_token") CaptureNoContext
               (Fulfilled "data:image/png;base64,AA") (Fulfilled tt)
               (fun _ => Resolved (mkResponse true 200 None ""))
               (Fulfilled (JArray [mkPrediction "pop bottle" 0.9%float]))
               1700000000000%Z (fun _ => "TypeError") in
  let s := setImageFile (Some (mkFile "bottle.jpg" "image/jpeg")) initialState in
  HF_API_TOKEN env <> Some ""
  /\ ((isCameraMode s = true /\ exists url, capture env = CaptureBlob url)
      \/ (isCameraMode s = false /\ exists file, imageFile s = Some file))
  /\ (exists b64, base64 env = Fulfilled b64)
  /\ arrayBuffer env = Fulfilled tt
  /\ snd (runInference env s) = fst (retryFetch (net env) 3).
Proof.
  apply (fetch_needs_token_and_image
           (mkEnv (Some "hf_token") CaptureNoContext
              (Fulfilled "data:image/png;base64,AA") (Fulfilled tt)
              (fun _ => Resolved (mkResponse true 200 None ""))
              (Fulfilled (JArray [mkPrediction "pop bottle" 0.9%float]))
              1700000000000%Z (fun _ => "TypeError"))
           (setImageFile (Some (mkFile "bottle.jpg" "image/jpeg")) initialState)).
  vm_compute. lia.
Defined.

(** X15: the token check stops a run only on the empty string.  With any
    other value, an unset variable ([undefined]) included, an image to
    send and both reads fulfilled, the run goes to the network: its
    fetches and waits are those of [retryFetch] with three attempts, at
    least one fetch. *)
Theorem unset_token_passes_the_check (env : InferenceEnv) (s : AppState) :
  HF_API_TOKEN env <> Some "" ->
  (isCameraMode s = true /\ exists url, capture env = CaptureBlob url)
  \/ (isCameraMode s = false /\ exists file, imageFile s = Some file) ->
  (exists b64, base64 env = Fulfilled b64) ->
  arrayBuffer env = Fulfilled tt ->
  snd (runInference env s) = fst (retryFetch (net env) 3)
  /\ 1 <= fetch_count (snd (runInference env s)).
Proof.
  intros Htoken Himg [b64 Hb] Ha.
  assert (Hev : snd (runInference env s) = fst (retryFetch (net env) 3)).
  { destruct (runInference_cases env s)
      as [(Htok & Hrun) | [(Htok & Hcam & Hcap & Hrun)
         | [(Htok & Hcam & Hfile & Hrun) | (Htok & s1 & file & Hsrc & Hrun)]]].
    - contradiction.
    - destruct Himg as [(_ & url & Hurl) | (Hcam' & _)]; [ | congruence ].
      rewrite Hurl in Hcap. discriminate.
    - destruct Himg as [(Hcam' & _) | (_ & file & Hf)]; congruence.
    - rewrite Hrun. cbn [snd].
      destruct (inference_try_cases env file
                  (setClassification None (setError "" (setLoading true s1))))
        as [(b & r & preds & v & _ & _ & _ & _ & _ & _ & Htry)
           | (msg & events & _ & Htry
              & [(_ & err & [Hf | Hf]) | (-> & _)])];
        rewrite Htry; cbn [snd]; try reflexivity; congruence. }
  split; [ exact Hev | ]. rewrite Hev. unfold retryFetch.
  apply retry_from_fetch_count. lia.
Qed.

Lemma unset_token_passes_the_check_witness :
  let env := mkEnv None CaptureNoContext
               (Fulfilled "data:image/png;base64,AA") (Fulfilled tt)
               (fun _ => Resolved (mkResponse false 401 None "{}"))
               (Fulfilled JPrimitive) 0%Z (fun _ => "TypeError") in
  let s := setImageFile (Some (mkFile "can.png" "image/png")) initialState in
  snd (runInference env s) = fst (retryFetch (net env) 3)
  /\ 1 <= fetch_count (snd (runInference env s)).
Proof.
  apply (unset_token_passes_the_check
           (mkEnv None CaptureNoContext
              (Fulfilled "data:image/png;base64,AA") (Fulfilled tt)
              (fun _ => Resolved (mkResponse false 401 None "{}"))
              (Fulfilled JPrimitive) 0%Z (fun _ => "TypeError"))
           (setImageFile (Some (mkFile "can.png" "image/png")) initialState)).
  - discriminate.
  - right. split; [ reflexivity | eexists; reflexivity ].
  - eexists; reflexivity.
  - reflexivity.
Defined.

(** X16: in camera mode a capture that gives no file ends the run with
    no request: camera mode and loading are off, history, classification
    and image file are untouched; the error says so when the video or
    canvas is missing or [toBlob] gives nothing, but stays as it was when
    the canvas has no 2d context. *)
Theorem failed_capture_ends_the_run (env : InferenceEnv) (s : AppState) :
  HF_API_TOKEN env <> Some "" ->
  isCameraMode s = true ->
  (forall url, capture env <> CaptureBlob url) ->
  snd (runInference env s) = []
  /\ isCameraMode (fst (runInference env s)) = false
  /\ loading (fst (runInference env s)) = false
  /\ history (fst (runInference env s)) = history s
  /\ classification (fst (runInference env s)) = classification s
  /\ imageFile (fst (runInference env s)) = imageFile s
  /\ error (fst (runInference env s))
     = match capture env with
       | CaptureNotReady => "Camera or canvas not ready for capture."
       | CaptureNoBlob => "Failed to create image blob from canvas."
       | _ => error s
       end.
Proof.
  intros Htoken Hcam Hcap.
  destruct (runInference_cases env s)
    as [(Htok & Hrun) | [(Htok & _ & Hnone & Hrun)
       | [(Htok & Hcam' & _ & Hrun) | (Htok & s1 & file & Hsrc & Hrun)]]].
  - contradiction.
  - rewrite Hrun. cbn [fst snd].
    destruct (capture env) as [ | | url | ]; simpl; repeat split.
    now destruct (Hcap url).
  - congruence.
  - destruct Hsrc as [(_ & Hsome & _) | (Hcam' & _)]; [ | congruence ].
    destruct (captureImage_captured _ _ _ Hsome) as [url Hurl].
    now destruct (Hcap url).
Qed.

Lemma failed_capture_ends_the_run_witness :
  let env := mkEnv (Some "hf_token") CaptureNoContext
               (Fulfilled "data:image/png;base64,AA") (Fulfilled tt)
               (fun _ => Resolved (mkResponse true 200 None ""))
               (Fulfilled (JArray [])) 0%Z (fun _ => "TypeError") in
  let s := handleStartCameraMode initialState in
  snd (runInference env s) = []
  /\ isCameraMode (fst (runInference env s)) = false
  /\ loading (fst (runInference env s)) = false
  /\ history (fst (runInference env s)) = history s
  /\ classification (fst (runInference env s)) = classification s
  /\ imageFile (fst (runInference env s)) = imageFile s
  /\ error (fst (runInference env s)) = error s.
Proof.
  apply (failed_capture_ends_the_run
           (mkEnv (Some "hf_token") CaptureNoContext
              (Fulfilled "data:image/png;base64,AA") (Fulfilled tt)
              (fun _ => Resolved (mkResponse true 200 None ""))
              (Fulfilled (JArray [])) 0%Z (fun _ => "TypeError"))
           (handleStartCameraMode initialState)).
  - discriminate.
  - reflexivity.
  - discriminate.
Defined.

(** X17: when [retryFetch] raises, the run reports the message behind
    "Inference failed: ", shows no classification, leaves the history
    alone and clears the loading flag; so three 401 answers end as
    "Inference failed: 401 Unauthorized: ...". *)
Theorem retry_failure_is_reported
    (env : InferenceEnv) (s : AppState) (file : File) (b64 : string)
    (events : list Event) (m : string) :
  HF_API_TOKEN env <> Some "" ->
  isCameraMode s = false -> imageFile s = Some file ->
  base64 env = Fulfilled b64 -> arrayBuffer env = Fulfilled tt ->
  retryFetch (net env) 3 = (events, Raised m) ->
  snd (runInference env s) = events
  /\ error (fst (runInference env s)) = "Inference failed: " ++ m
  /\ classification (fst (runInference env s)) = None
  /\ history (fst (runInference env s)) = history s
  /\ loading (fst (runInference env s)) = false.
Proof.
  intros Htoken Hcam Hfile Hb Ha Hr.
  unfold runInference, inference_try.
  destruct (HF_API_TOKEN env) as [[|c tok]|]; [ contradiction | | ];
    rewrite Hcam, Hfile, Hb, Ha, Hr; repeat split.
Qed.

Lemma retry_failure_is_reported_witness :
  let env := mkEnv (Some "hf_bad_token") CaptureNoContext
               (Fulfilled "data:image/png;base64,AA") (Fulfilled tt)
               (fun _ => Resolved (mkResponse false 401 None "{}"))
               (Fulfilled (JArray [])) 0%Z (fun _ => "TypeError") in
  let s := setImageFile (Some (mkFile "can.png" "image/png")) initialState in
  snd (runInference env s)
    = [EvFetch; EvSleep 1000; EvFetch; EvSleep 2000; EvFetch]
  /\ error (fst (runInference env s))
     = "Inference failed: " ++ unauthorized_message
  /\ classification (fst (runInference env s)) = None
  /\ history (fst (runInference env s)) = history s
  /\ loading (fst (runInference env s)) = false.
Proof.
  apply (retry_failure_is_reported
           (mkEnv (Some "hf_bad_token") CaptureNoContext
              (Fulfilled "data:image/png;base64,AA") (Fulfilled tt)
              (fun _ => Resolved (mkResponse false 401 None "{}"))
              (Fulfilled (JArray [])) 0%Z (fun _ => "TypeError"))
           (setImageFile (Some (mkFile "can.png" "image/png")) initialState)
           (mkFile "can.png" "image/png") "data:image/png;base64,AA");
    try reflexivity.
  discriminate.
Defined.

(** X18: a run that gets past the checks ends in exactly one of two
    ways: a classification with an empty error, or no classification with
    a non-empty error.  An empty array from the model is an error
    ("unexpected response format"), never an N/A verdict. *)
Theorem run_ends_with_verdict_or_error (env : InferenceEnv) (s : AppState) :
  HF_API_TOKEN env <> Some "" ->
  (isCameraMode s = true /\ exists url, capture env = CaptureBlob url)
  \/ (isCameraMode s = false /\ exists file, imageFile s = Some file) ->
  (exists v preds,
      classification (fst (runInference env s)) = Some v
      /\ error (fst (runInference env s)) = ""
      /\ json env = Fulfilled (JArray preds) /\ preds <> []
      /\ getWasteDetails (Some preds) = Ok v)
  \/ (classification (fst (runInference env s)) = None
      /\ error (fst (runInference env s)) <> "").
Proof.
  intros Htoken Himg.
  destruct (runInference_cases env s)
    as [(Htok & Hrun) | [(Htok & Hcam & Hcap & Hrun)
       | [(Htok & Hcam & Hfile & Hrun) | (Htok & s1 & file & Hsrc & Hrun)]]].
  - contradiction.
  - destruct Himg as [(_ & url & Hurl) | (Hcam' & _)]; [ | congruence ].
    rewrite Hurl in Hcap. discriminate.
  - destruct Himg as [(Hcam' & _) | (_ & file & Hf)]; congruence.
  - rewrite Hrun. cbn [fst].
    destruct (inference_try_cases env file
                (setClassification None (setError "" (setLoading true s1))))
      as [(b64 & r & preds & v & Hb & Ha & Hr & Hj & Hne & Hg & Htry)
         | (msg & events & Hmsg & Htry & _)];
      rewrite Htry; cbn [fst].
    + left. exists v, preds. repeat split; assumption.
    + right. split; [ reflexivity | exact Hmsg ].
Qed.

Lemma run_ends_with_verdict_or_error_witness :
  let env := mkEnv (Some "hf_token") CaptureNoContext
               (Fulfilled "data:image/png;base64,AA") (Fulfilled tt)
               (fun _ => Resolved (mkResponse true 200 None ""))
               (Fulfilled (JArray [])) 0%Z (fun _ => "TypeError") in
  let s := setImageFile (Some (mkFile "can.png" "image/png")) initialState in
  (exists v preds,
      classification (fst (runInference env s)) = Some v
      /\ error (fst (runInference env s)) = ""
      /\ json env = Fulfilled (JArray preds) /\ preds <> []
      /\ getWasteDetails (Some preds) = Ok v)
  \/ (classification (fst (runInference env s)) = None
      /\ error (fst (runInference env s)) <> "").
Proof.
  apply (run_ends_with_verdict_or_error
           (mkEnv (Some "hf_token") CaptureNoContext
              (Fulfilled "data:image/png;base64,AA") (Fulfilled tt)
              (fun _ => Resolved (mkResponse true 200 None ""))
              (Fulfilled (JArray [])) 0%Z (fun _ => "TypeError"))
           (setImageFile (Some (mkFile "can.png" "image/png")) initialState)).
  - discriminate.
  - right. split; [ reflexivity | eexists; reflexivity ].
Defined.

(** X19: choosing something that is not an image (no file, or a type
    that does not start with "image/") drops the image file and leaves
    camera mode, but keeps the previous classification on screen; a run
    started from there makes no request and asks for an image. *)
Theorem invalid_file_blocks_inference
    (env : InferenceEnv) (s : AppState) (file : option File) (url : string) :
  HF_API_TOKEN env <> Some "" ->
  match file with
  | Some f => prefix "image/" (file_type f) = false
  | None => True
  end ->
  imageFile (handleFileChange file url s) = None
  /\ imageUrl (handleFileChange file url s) = FALLBACK_IMAGE_URL
  /\ isCameraMode (handleFileChange file url s) = false
  /\ classification (handleFileChange file url s) = classification s
  /\ runInference env (handleFileChange file url s)
     = (setError
          "Please upload an image or enable camera mode before classifying."
          (handleFileChange file url s), []).
Proof.
  intros Htoken Hfile.
  assert (Hs : imageFile (handleFileChange file url s) = None
               /\ imageUrl (handleFileChange file url s) = FALLBACK_IMAGE_URL
               /\ isCameraMode (handleFileChange file url s) = false
               /\ classification (handleFileChange file url s) = classification s).
  { unfold handleFileChange. destruct file as [f|].
    - rewrite Hfile. destruct (isCameraMode s) eqn:Hc; repeat split; exact Hc.
    - destruct (isCameraMode s) eqn:Hc; repeat split; exact Hc. }
  destruct Hs as (Hf & Hu & Hc & Hk). repeat split; try assumption.
  unfold runInference.
  destruct (HF_API_TOKEN env) as [[|c tok]|]; [ contradiction | | ];
    now rewrite Hc, Hf.
Qed.

Lemma invalid_file_blocks_inference_witness :
  let env := mkEnv (Some "hf_token") CaptureNoContext
               (Fulfilled "data:application/pdf;base64,AA") (Fulfilled tt)
               (fun _ => Resolved (mkResponse true 200 None ""))
               (Fulfilled (JArray [])) 0%Z (fun _ => "TypeError") in
  let s1 := handleFileChange (Some (mkFile "notes.pdf" "application/pdf"))
              "blob:1" initialState in
  imageFile s1 = None
  /\ imageUrl s1 = FALLBACK_IMAGE_URL
  /\ isCameraMode s1 = false
  /\ classification s1 = classification initialState
  /\ runInference env s1
     = (setError
          "Please upload an image or enable camera mode before classifying."
          s1, []).
Proof.
  apply (invalid_file_blocks_inference
           (mkEnv (Some "hf_token") CaptureNoContext
              (Fulfilled "data:application/pdf;base64,AA") (Fulfilled tt)
              (fun _ => Resolved (mkResponse true 200 None ""))
              (Fulfilled (JArray [])) 0%Z (fun _ => "TypeError"))
           initialState (Some (mkFile "notes.pdf" "application/pdf")) "blob:1").
  - discriminate.
  - reflexivity.
Defined.

(** X22: with a token, an uploaded image, both reads fulfilled, a
    response returned by [retryFetch] and a non-empty array of
    predictions as its body, the run shows the verdict of
    [getWasteDetails] on that array, puts it at the head of the history
    with the image and the time, clears the error and the loading flag;
    the classifier never makes the run fail. *)
Theorem successful_run_stores_the_verdict
    (env : InferenceEnv) (s : AppState) (file : File) (b64 : string)
    (events : list Event) (r : Response)
    (p : HFPrediction) (rest : list HFPrediction) :
  HF_API_TOKEN env <> Some "" ->
  isCameraMode s = false -> imageFile s = Some file ->
  base64 env = Fulfilled b64 -> arrayBuffer env = Fulfilled tt ->
  retryFetch (net env) 3 = (events, Returned r) ->
  json env = Fulfilled (JArray (p :: rest)) ->
  exists v,
    getWasteDetails (Some (p :: rest)) = Ok v
    /\ rawLabel v = label p
    /\ classification (fst (runInference env s)) = Some v
    /\ history (fst (runInference env s))
       = addToHistory (mkHistoryItem v b64 (now env)) (history s)
    /\ error (fst (runInference env s)) = ""
    /\ loading (fst (runInference env s)) = false
    /\ snd (runInference env s) = events.
Proof.
  intros Htoken Hcam Hfile Hb Ha Hr Hj.
  assert (Hv : exists v, getWasteDetails (Some (p :: rest)) = Ok v
                         /\ rawLabel v = label p).
  { unfold getWasteDetails. classify_cases p; eexists; split; reflexivity. }
  destruct Hv as (v & Hv & Hraw). exists v.
  split; [ exact Hv | ]. split; [ exact Hraw | ].
  unfold runInference, inference_try.
  destruct (HF_API_TOKEN env) as [[|c tok]|]; [ contradiction | | ];
    rewrite Hcam, Hfile, Hb, Ha, Hr, Hj, Hv; repeat split.
Qed.

Lemma successful_run_stores_the_verdict_witness :
  let env := mkEnv (Some "hf_token") CaptureNoContext
               (Fulfilled "data:image/jpeg;base64,AA") (Fulfilled tt)
               (fun _ => Resolved (mkResponse true 200 None ""))
               (Fulfilled (JArray [mkPrediction "banana" 0.8%float]))
               1700000000000%Z (fun _ => "TypeError") in
  let s := handleFileChange (Some (mkFile "banana.jpg" "image/jpeg")) "blob:1"
             initialState in
  exists v,
    getWasteDetails (Some [mkPrediction "banana" 0.8%float]) = Ok v
    /\ rawLabel v = "banana"
    /\ classification (fst (runInference env s)) = Some v
    /\ history (fst (runInference env s))
       = addToHistory (mkHistoryItem v "data:image/jpeg;base64,AA" (now env))
           (history s)
    /\ error (fst (runInference env s)) = ""
    /\ loading (fst (runInference env s)) = false
    /\ snd (runInference env s) = [EvFetch].
Proof.
  apply (successful_run_stores_the_verdict
           (mkEnv (Some "hf_token") CaptureNoContext
              (Fulfilled "data:image/jpeg;base64,AA") (Fulfilled tt)
              (fun _ => Resolved (mkResponse true 200 None ""))
              (Fulfilled (JArray [mkPrediction "banana" 0.8%float]))
              1700000000000%Z (fun _ => "TypeError"))
           (handleFileChange (Some (mkFile "banana.jpg" "image/jpeg")) "blob:1"
              initialState)
           (mkFile "banana.jpg" "image/jpeg") "data:image/jpeg;base64,AA"
           [EvFetch] (mkResponse true 200 None "")
           (mkPrediction "banana" 0.8%float) []);
    try reflexivity.
  discriminate.
Defined.

(** A body that is [null] makes the loading test throw, and the engine's
    message is what the wrapper raises; an [error] array with the phrase
    as an element takes the loading path. *)
Example null_body_raises_type_error :
  retryFetch
    (fun _ => Resolved
       (mkResponseOf false 503 (DetailsNull "Cannot read properties of null")))
    2
  = ([EvFetch; EvSleep 1000; EvFetch], Raised "Cannot read properties of null").
Proof. reflexivity. Qed.

Example error_array_is_loading :
  retryFetch
    (fun _ => Resolved
       (mkResponseOf false 503
          (DetailsValue (ErrorArray [Some "is currently loading"]) "{}")))
    1
  = ([EvFetch; EvSleep 5000], Raised "Fetch failed after all retries.").
Proof. reflexivity. Qed.

(** ** The histories the component can hold *)

Lemma Forall_firstn {A} (P : A -> Prop) (n : nat) (l : list A) :
  Forall P l -> Forall P (firstn n l).
Proof.
  intros H. rewrite <- (firstn_skipn n l) in H.
  now apply Forall_app in H.
Qed.

Lemma inference_try_success (env : InferenceEnv) (file : File) (s : AppState)
    (b64 : string) (events : list Event) (r : Response)
    (p : HFPrediction) (rest : list HFPrediction) :
  base64 env = Fulfilled b64 -> arrayBuffer env = Fulfilled tt ->
  retryFetch (net env) 3 = (events, Returned r) ->
  json env = Fulfilled (JArray (p :: rest)) ->
  exists v,
    getWasteDetails (Some (p :: rest)) = Ok v
    /\ inference_try env file s
       = (setHistory (addToHistory (mkHistoryItem v b64 (now env)))
            (setClassification (Some v) s), events).
Proof.
  intros Hb Ha Hr Hj.
  destruct (verdict_profile (Some (p :: rest))) as (v & _ & Hv & _).
  exists v. split; [ exact Hv | ].
  unfold inference_try. now rewrite Hb, Ha, Hr, Hj, Hv.
Qed.

Lemma rawLabel_of_verdict (p : HFPrediction) (rest : list HFPrediction)
    (v : ClassificationResult) :
  getWasteDetails (Some (p :: rest)) = Ok v -> rawLabel v = label p.
Proof.
  unfold getWasteDetails. classify_cases p; intros [= <-]; reflexivity.
Qed.

Lemma history_reachable_ops (h : list HistoryItem) :
  history_reachable h -> exists ops, h = run_history ops.
Proof.
  induction 1 as [ | env s _ [ops IH] | h _ [ops IH] ].
  - exists []. reflexivity.
  - destruct (runInference_result env s)
      as [[Hh _] | (preds & v & b64 & r & _ & _ & _ & _ & _ & _ & _ & Hh)];
      rewrite Hh.
    + exists ops. exact IH.
    + exists (ops ++ [Store (mkHistoryItem v b64 (now env))])%list.
      now rewrite run_history_snoc, IH.
  - exists (ops ++ [Clear])%list. now rewrite run_history_snoc.
Qed.

(** C9: the history starts empty.  A successful classification (both
    reads fulfilled, a response returned by [retryFetch], a non-empty
    array of predictions) stores the verdict of [getWasteDetails] as the
    new head and keeps the four items that followed; a run never changes
    the history in another way.  So every history the component can hold
    has at most five items and is what a sequence of stores and clears
    gives: after stores alone, the five most recent items, most recent
    first, a sixth store dropping the oldest; a clear leaves it empty. *)
Theorem history_keeps_five_most_recent :
  initialHistory = []
  /\ (forall env file s b64 events r p rest,
        base64 env = Fulfilled b64 -> arrayBuffer env = Fulfilled tt ->
        retryFetch (net env) 3 = (events, Returned r) ->
        json env = Fulfilled (JArray (p :: rest)) ->
        exists v,
          getWasteDetails (Some (p :: rest)) = Ok v
          /\ classification (fst (inference_try env file s)) = Some v
          /\ history (fst (inference_try env file s))
             = mkHistoryItem v b64 (now env) :: firstn 4 (history s))
  /\ (forall env s,
        history (fst (runInference env s)) = history s
        \/ exists v b64,
             classification (fst (runInference env s)) = Some v
             /\ history (fst (runInference env s))
                = mkHistoryItem v b64 (now env) :: firstn 4 (history s))
  /\ (forall h, history_reachable h -> List.length h <= 5)
  /\ (forall h, history_reachable h -> exists ops, h = run_history ops)
  /\ (forall item h, addToHistory item h = item :: firstn 4 h)
  /\ (forall ops, List.length (run_history ops) <= 5)
  /\ (forall items, run_history (map Store items) = firstn 5 (rev items))
  /\ (forall x1 x2 x3 x4 x5 x6,
        run_history (map Store [x1; x2; x3; x4; x5; x6]) = [x6; x5; x4; x3; x2])
  /\ (forall h, clearHistory h = [])
  /\ (forall ops, run_history (ops ++ [Clear])%list = []).
Proof.
  split; [ reflexivity | ].
  split.
  { intros env file s b64 events r p rest Hb Ha Hr Hj.
    destruct (inference_try_success env file s b64 events r p rest Hb Ha Hr Hj)
      as (v & Hv & Htry).
    exists v. rewrite Htry. repeat split. exact Hv. }
  split.
  { intros env s.
    destruct (runInference_result env s)
      as [[Hh _] | (preds & v & b64 & r & _ & _ & _ & _ & _ & Hc & _ & Hh)].
    - left. exact Hh.
    - right. exists v, b64. split; [ exact Hc | ].
      now rewrite Hh, addToHistory_cons. }
  split.
  { intros h Hreach. destruct (history_reachable_ops h Hreach) as [ops ->].
    apply run_history_length. }
  split; [ exact history_reachable_ops | ].
  split; [ exact addToHistory_cons | ].
  split; [ exact run_history_length | ].
  split; [ exact run_history_stores | ].
  split; [ reflexivity | ].
  split; [ reflexivity | ].
  intros ops. now rewrite run_history_snoc.
Qed.

Lemma history_keeps_five_most_recent_witness :
  let env := fun n : Z =>
    mkEnv (Some "hf_token") CaptureNoContext
      (Fulfilled "data:image/jpeg;base64,AA") (Fulfilled tt)
      (fun _ => Resolved (mkResponse true 200 None ""))
      (Fulfilled (JArray [mkPrediction "banana" 0.8%float]))
      n (fun _ => "TypeError") in
  let s6 :=
    fold_left (fun s n => fst (runInference (env n) s)) [1; 2; 3; 4; 5; 6]%Z
      (setImageFile (Some (mkFile "banana.jpg" "image/jpeg")) initialState) in
  map timestamp (history s6) = [6; 5; 4; 3; 2]%Z
  /\ List.length (history s6) <= 5.
Proof.
  cbv zeta. split; [ vm_compute; reflexivity | ].
  apply (proj1 (proj2 (proj2 (proj2 history_keeps_five_most_recent)))).
  cbn [fold_left]. do 6 apply reach_run. exact reach_initial.
Defined.

(** X21: every item of a history the component can hold is a verdict
    that [getWasteDetails] returned for a non-empty array of
    predictions, with the first label of that array as [rawLabel]. *)
Theorem stored_verdicts_come_from_the_classifier (h : list HistoryItem) :
  history_reachable h ->
  Forall (fun item =>
            exists p rest,
              getWasteDetails (Some (p :: rest)) = Ok (result item)
              /\ rawLabel (result item) = label p) h.
Proof.
  induction 1 as [ | env s _ IH | h _ _ ].
  - constructor.
  - destruct (runInference_result env s)
      as [[Hh _] | (preds & v & b64 & r & _ & Hne & _ & _ & Hg & _ & _ & Hh)];
      rewrite Hh; [ exact IH | ].
    destruct preds as [|p rest]; [ now destruct Hne | ].
    unfold addToHistory. apply Forall_firstn.
    constructor; [ | exact IH ]. exists p, rest.
    split; [ exact Hg | exact (rawLabel_of_verdict p rest v Hg) ].
  - constructor.
Qed.

Lemma stored_verdicts_come_from_the_classifier_witness :
  Forall (fun item =>
            exists p rest,
              getWasteDetails (Some (p :: rest)) = Ok (result item)
              /\ rawLabel (result item) = label p)
    (history
       (fst (runInference
               (mkEnv (Some "hf_token") CaptureNoContext
                  (Fulfilled "data:image/jpeg;base64,AA") (Fulfilled tt)
                  (fun _ => Resolved (mkResponse true 200 None ""))
                  (Fulfilled (JArray [mkPrediction "N/A" 0.8%float]))
                  1700000000000%Z (fun _ => "TypeError"))
               (setImageFile (Some (mkFile "blank.jpg" "image/jpeg"))
                  initialState)))).
Proof.
  apply stored_verdicts_come_from_the_classifier.
  apply reach_run. exact reach_initial.
Defined.
